(** * TrendScouter data-access layer ([src/lib/api.ts])

    A shallow embedding of the API layer of the dashboard: the settings
    resolver, the in-memory cache with its five-minute expiry, the mock
    provider, the retrying HTTP client and the public query functions,
    followed by the properties established about them.

    Conventions of the embedding.
    - Time is a millisecond counter ([Z]); [Date.now()] reads it.  Only the
      awaited operations (mock delay, [fetch], back-off sleep) move it.
    - The module-level [cache] is a [gmap string entry] threaded through
      every operation together with the clock and a log of the I/O the
      code performs.
    - Payloads are untyped in the source ([any], the result of
      [response.json()]); they are JSON values here, with JavaScript
      truthiness.
    - A thrown JavaScript [Error] is a record of its [name] and [message]. *)

From Stdlib Require Import ZArith String Ascii List Bool Lia.
From Stdlib Require Import DecimalString DecimalZ DecimalPos.
From stdpp Require Import gmap strings list fin_maps.

Local Open Scope string_scope.
Local Open Scope list_scope.
Local Open Scope Z_scope.

Set Warnings "-register-all".

(** ** JavaScript strings and values *)

Module JS.

(** [s.startsWith(p)] *)
Definition startsWith (p s : string) : bool := String.prefix p s.

(** [s.includes(p)] *)
Fixpoint includes (p s : string) : bool :=
  String.prefix p s ||
  match s with
  | EmptyString => false
  | String _ s' => includes p s'
  end.

(** [s.split(c)]: the pieces between the occurrences of the character
    [c]; never empty ([''.split('/')] is [['']]). *)
Fixpoint split (c : ascii) (s : string) : list string :=
  match s with
  | EmptyString => [EmptyString]
  | String a s' =>
      if Ascii.eqb a c then EmptyString :: split c s'
      else match split c s' with
           | [] => [String a EmptyString]
           | piece :: rest => String a piece :: rest
           end
  end.

(** Template-literal rendering of an integral number. *)
Definition showNumber (n : Z) : string :=
  NilZero.string_of_int (Z.to_int n).

(** The payload type [any]: JSON values. *)
Inductive value : Type :=
| JNull
| JBool (b : bool)
| JNum (n : Z)
| JStr (s : string)
| JArr (xs : list value)
| JObj (fields : list (string * value)).

(** JavaScript truthiness, as used by [if (cached)]. *)
Definition truthy (v : value) : bool :=
  match v with
  | JNull => false
  | JBool b => b
  | JNum n => negb (n =? 0)
  | JStr s => negb (String.eqb s "")
  | JArr _ => true
  | JObj _ => true
  end.

(** [xs.slice(0, n)] on an array. *)
Definition slice0 (n : nat) (xs : list value) : list value := take n xs.

(** An [Error] object. *)
Record error : Type := mkError { name : string; message : string }.

Definition Error (msg : string) : error :=
  {| name := "Error"; message := msg |}.

End JS.

Import JS.

(** ** Constants of the module *)

Definition API_TIMEOUT : Z := 10000.
Definition MAX_RETRIES : nat := 2.
Definition CACHE_DURATION : Z := 5 * 60 * 1000.

(** ** Settings: [getApiBaseUrl] and [shouldUseMocks] *)

(** The three ambient settings the layer reads: the build-time variable
    (possibly undefined) and the two [localStorage] items (possibly
    [null]). *)
Record settings : Type := {
  VITE_API_BASE_URL : option string;
  stored_apiBaseUrl : option string;
  stored_useMocks : option string
}.

(** Truthiness of a [string | null | undefined]. *)
Definition truthyStr (o : option string) : bool :=
  match o with
  | Some s => negb (String.eqb s "")
  | None => false
  end.

(** [a || b] on such values. *)
Definition orElse (a b : option string) : option string :=
  if truthyStr a then a else b.

Definition getApiBaseUrl (s : settings) : option string :=
  orElse (orElse (VITE_API_BASE_URL s) (stored_apiBaseUrl s)) None.

(** [x === 'true'] for a [string | null]. *)
Definition isTrueStr (o : option string) : bool :=
  match o with
  | Some s => String.eqb s "true"
  | None => false
  end.

Definition shouldUseMocks (s : settings) : bool :=
  negb (truthyStr (getApiBaseUrl s)) || isTrueStr (stored_useMocks s).

(** ** The cache *)

Record entry : Type := mkEntry { data : value; timestamp : Z }.

Definition getCacheKey (endpoint : string) : string := "api:" +:+ endpoint.

(** [getCachedData], with the reading of [Date.now()] as an argument.
    Returns the value handed to the caller ([null] when absent or
    expired) and the cache left behind. *)
Definition getCachedData (now : Z) (key : string) (c : gmap string entry)
  : value * gmap string entry :=
  match c !! key with
  | None => (JNull, c)
  | Some cached =>
      let isExpired := now - timestamp cached >? CACHE_DURATION in
      if isExpired then (JNull, delete key c)
      else (data cached, c)
  end.

Definition setCachedData (now : Z) (key : string) (d : value)
  (c : gmap string entry) : gmap string entry :=
  <[key := {| data := d; timestamp := now |}]> c.


(** ** The world the asynchronous code runs in *)

(** What the layer does to the outside, in the order it does it. *)
Inductive event : Type :=
| EvArmTimeout (ms : Z)          (* setTimeout(() => controller.abort(), ms) *)
| EvFetch (url : string)         (* a call of fetch(url, ...) *)
| EvSleep (ms : Z)               (* a back-off sleep *)
| EvMock (endpoint : string)     (* a read of the mock fixtures *)
| EvConsoleError (msg : string). (* console.error *)

Record world : Type := mkWorld {
  now : Z;
  cache : gmap string entry;
  log : list event
}.

Definition tick (d : Z) (w : world) : world :=
  {| now := now w + d; cache := cache w; log := log w |}.

Definition emit (e : event) (w : world) : world :=
  {| now := now w; cache := cache w; log := log w ++ [e] |}.

(** A computation either returns or throws, and leaves a world behind. *)
Inductive outcome (A : Type) : Type :=
| Ret (a : A)
| Throw (e : error).
Arguments Ret {A} a.
Arguments Throw {A} e.

Definition M (A : Type) : Type := world -> outcome A * world.

Definition ret {A} (a : A) : M A := fun w => (Ret a, w).
Definition throw {A} (e : error) : M A := fun w => (Throw e, w).

Definition bind {A B} (m : M A) (k : A -> M B) : M B :=
  fun w =>
    match m w with
    | (Ret a, w') => k a w'
    | (Throw e, w') => (Throw e, w')
    end.

(** [try { m } catch (error) { h error }] *)
Definition tryCatch {A} (m : M A) (h : error -> M A) : M A :=
  fun w =>
    match m w with
    | (Ret a, w') => (Ret a, w')
    | (Throw e, w') => h e w'
    end.

Notation "x <- m ;; k" := (bind m (fun x => k))
  (at level 100, m at next level, right associativity).
Notation "m ;;; k" := (bind m (fun _ => k))
  (at level 100, right associativity).

Definition getCached (key : string) : M value :=
  fun w =>
    let (v, c) := getCachedData (now w) key (cache w) in
    (Ret v, {| now := now w; cache := c; log := log w |}).

Definition setCached (key : string) (d : value) : M unit :=
  fun w =>
    (Ret tt, {| now := now w;
                cache := setCachedData (now w) key d (cache w);
                log := log w |}).

Definition clearCache : M unit :=
  fun w => (Ret tt, {| now := now w; cache := ∅; log := log w |}).

Definition consoleError (msg : string) : M unit :=
  fun w => (Ret tt, emit (EvConsoleError msg) w).

(** ** The mock provider *)

(** The five JSON fixture files imported by the module.  Their contents
    are not part of the sources at hand; each is a JSON array. *)
Record fixtures : Type := {
  mockTrends : list value;
  mockSubtrendsDefenseTech : list value;
  mockSubtrendsClimateSolutions : list value;
  mockStartupsMilitaryDrones : list value;
  mockStartupsCarbon : list value
}.

(** [x === id] for [x = endpoint.split('/')[2]], which is [undefined]
    when the endpoint has fewer than three pieces. *)
Definition strictEq (x : option string) (id : string) : bool :=
  match x with
  | Some seg => String.eqb seg id
  | None => false
  end.

(** Falling through to the next statement when a block did not return. *)
Definition orNext (a b : option value) : option value :=
  match a with
  | Some v => Some v
  | None => b
  end.

(** The routing of [getMockData]: the value returned, or [None] when
    control reaches the final [throw]. *)
Definition mockRoute (fx : fixtures) (endpoint : string) : option value :=
  orNext
    (if startsWith "/trends" endpoint then
       if includes "limit=3" endpoint || String.eqb endpoint "/trends"
       then Some (JArr (slice0 3 (mockTrends fx)))
       else None
     else None)
  (orNext
    (if includes "/subtrends" endpoint then
       let trendId := split "/"%char endpoint !! 2%nat in
       if strictEq trendId "defense-tech"
       then Some (JArr (mockSubtrendsDefenseTech fx))
       else if strictEq trendId "climate-solutions"
       then Some (JArr (mockSubtrendsClimateSolutions fx))
       else None
     else None)
    (if includes "/startups" endpoint then
       let subtrendId := split "/"%char endpoint !! 2%nat in
       if strictEq subtrendId "military-drones"
       then Some (JArr (mockStartupsMilitaryDrones fx))
       else if strictEq subtrendId "carbon-capture"
       then Some (JArr (mockStartupsCarbon fx))
       else None
     else None)).

Definition mockNotFound (endpoint : string) : error :=
  Error ("Mock data not found for endpoint: " +:+ endpoint).

(** [getMockData]; [delay] is the simulated latency drawn for this call
    ([200 + Math.random() * 300] milliseconds). *)
Definition getMockData (fx : fixtures) (delay : N) (endpoint : string)
  : M value :=
  fun w =>
    let w1 := emit (EvMock endpoint) (tick (Z.of_N delay) w) in
    match mockRoute fx endpoint with
    | Some v => (Ret v, w1)
    | None => (Throw (mockNotFound endpoint), w1)
    end.

(** ** The retrying HTTP client *)

(** What the client looks at in a [Response]: the status line and the
    result of decoding the body with [response.json()]. *)
Record response : Type := {
  status : Z;
  statusText : string;
  body : outcome value
}.

(** [response.ok] *)
Definition ok (r : response) : bool :=
  (200 <=? status r) && (status r <=? 299).

(** How a [fetch] left to itself settles. *)
Inductive reply : Type :=
| Resolved (r : response)
| Rejected (e : error).

(** The network as seen by one call of [fetchWithRetry]: for the attempt
    of each index, the time the request takes and how it settles when it
    is not aborted first. *)
Definition network : Type := nat -> N * reply.

(** The rejection of a [fetch] whose signal is aborted.  Only the name is
    inspected by the client; the message text is the browser's. *)
Definition abortError : error :=
  {| name := "AbortError"; message := "The operation was aborted." |}.

(** The [AbortController] of a call and its timer: the instant at which
    the pending timer will fire, if it is still pending, and whether the
    signal has been aborted. *)
Record controller : Type := {
  pending : option Z;
  aborted : bool
}.

Definition clearTimeout (c : controller) : controller :=
  {| pending := None; aborted := aborted c |}.

(** The timer callback runs as soon as the clock reaches its instant. *)
Definition fireIfDue (c : controller) (t : Z) : controller :=
  match pending c with
  | Some deadline =>
      if deadline <=? t then {| pending := None; aborted := true |} else c
  | None => c
  end.

(** [await new Promise(resolve => setTimeout(resolve, ms))] *)
Definition sleep (ms : Z) (c : controller) (w : world) : controller * world :=
  let w1 := tick ms (emit (EvSleep ms) w) in
  (fireIfDue c (now w1), w1).

(** [await fetch(url, { signal: controller.signal, ... })]: rejects at
    once on an aborted signal, is aborted at the timer's instant when the
    reply would not come before it, and otherwise settles as the network
    says. *)
Definition doFetch (net : network) (url : string) (attempt : nat)
  (c : controller) (w : world) : reply * controller * world :=
  let w0 := emit (EvFetch url) w in
  if aborted c then (Rejected abortError, c, w0)
  else
    let (latency, r) := net attempt in
    let arrival := now w0 + Z.of_N latency in
    match pending c with
    | Some deadline =>
        if deadline <=? arrival
        then (Rejected abortError,
              {| pending := None; aborted := true |},
              tick (deadline - now w0) w0)
        else (r, c, tick (Z.of_N latency) w0)
    | None => (r, c, tick (Z.of_N latency) w0)
    end.

Definition httpError (r : response) : error :=
  Error ("HTTP " +:+ showNumber (status r) +:+ ": " +:+ statusText r).

(** The test of the [catch] block that ends the loop. *)
Definition noRetry (e : error) : bool :=
  String.eqb (name e) "AbortError" || includes "HTTP 4" (message e).

(** [throw lastError || new Error('Request failed')] *)
Definition surface (lastError : option error) : error :=
  match lastError with
  | Some e => e
  | None => Error "Request failed"
  end.

(** The [for] loop of [fetchWithRetry] from the iteration of index
    [attempt] on, together with the two statements after it.
    [remaining] counts the iterations left, [MAX_RETRIES + 1 - attempt]. *)
Fixpoint attempts (net : network) (url : string) (remaining attempt : nat)
  (lastError : option error) (c : controller) (w : world)
  : outcome response * world :=
  match remaining with
  | O => (Throw (surface lastError), w)
  | S remaining' =>
      let caught (e : error) (c1 : controller) (w1 : world) :=
        if noRetry e then (Throw (surface (Some e)), w1)
        else
          let (c2, w2) :=
            if (attempt <? MAX_RETRIES)%nat
            then sleep (2 ^ Z.of_nat attempt * 1000) c1 w1
            else (c1, w1) in
          attempts net url remaining' (S attempt) (Some e) c2 w2 in
      match doFetch net url attempt c w with
      | (Resolved resp, c1, w1) =>
          let c2 := clearTimeout c1 in
          if ok resp then (Ret resp, w1)
          else caught (httpError resp) c2 w1
      | (Rejected e, c1, w1) => caught e c1 w1
      end
  end.

Definition fetchWithRetry (net : network) (url : string) : M response :=
  fun w =>
    let c := {| pending := Some (now w + API_TIMEOUT); aborted := false |} in
    attempts net url (S MAX_RETRIES) 0 None c (emit (EvArmTimeout API_TIMEOUT) w).

(** [await response.json()] *)
Definition json (r : response) : M value :=
  fun w => (body r, w).

(** ** The public query functions *)

(** Everything a call depends on besides its arguments and the world:
    the settings in force, the fixtures, the delay drawn by the mock
    provider and the behaviour of the network. *)
Record env : Type := {
  conf : settings;
  mocks : fixtures;
  mockDelay : N;
  net : network
}.

Definition configError : error := Error "API base URL not configured".

(** The body of the [try] block shared, statement for statement, by
    [fetchTrends], [fetchSubtrends] and [fetchStartups].  [unconfigured]
    is what the branch [if (!baseUrl)] does. *)
Definition freshFetch (unconfigured : M value) (E : env)
  (endpoint cacheKey : string) : M value :=
  if shouldUseMocks (conf E) then
    d <- getMockData (mocks E) (mockDelay E) endpoint ;;
    setCached cacheKey d ;;;
    ret d
  else
    let baseUrl := getApiBaseUrl (conf E) in
    match baseUrl with
    | Some u =>
        if negb (truthyStr baseUrl) then unconfigured
        else
          resp <- fetchWithRetry (net E) (u +:+ endpoint) ;;
          d <- json resp ;;
          setCached cacheKey d ;;;
          ret d
    | None => unconfigured
    end.

(** The [catch] block of a query function for the named resource. *)
Definition rethrow (resource : string) (e : error) : M value :=
  consoleError ("Error fetching " +:+ resource +:+ ":") ;;;
  throw (Error ("Failed to fetch " +:+ resource +:+ ": " +:+ message e)).

(** Cache check, then the guarded fresh fetch. *)
Definition query (unconfigured : M value) (E : env)
  (resource endpoint : string) : M value :=
  let cacheKey := getCacheKey endpoint in
  cached <- getCached cacheKey ;;
  if truthy cached then ret cached
  else tryCatch (freshFetch unconfigured E endpoint cacheKey)
                (rethrow resource).

(** [limit ? `?limit=${limit}` : ''] for an optional number. *)
Definition trendsEndpoint (limit : option Z) : string :=
  "/trends" +:+
  match limit with
  | Some n => if negb (n =? 0) then "?limit=" +:+ showNumber n else ""
  | None => ""
  end.

Definition subtrendsEndpoint (trendId : string) : string :=
  "/trends/" +:+ trendId +:+ "/subtrends".

(** The parameter [limit: number = 3]: the default applies when the
    argument is omitted. *)
Definition startupsEndpoint (subtrendId : string) (limit : option Z) : string :=
  "/subtrends/" +:+ subtrendId +:+ "/startups?limit=" +:+
  showNumber (match limit with Some n => n | None => 3 end).

Definition fetchTrendsWith (unconfigured : M value) (E : env)
  (limit : option Z) : M value :=
  query unconfigured E "trends" (trendsEndpoint limit).

Definition fetchSubtrendsWith (unconfigured : M value) (E : env)
  (trendId : string) : M value :=
  query unconfigured E "subtrends" (subtrendsEndpoint trendId).

Definition fetchStartupsWith (unconfigured : M value) (E : env)
  (subtrendId : string) (limit : option Z) : M value :=
  query unconfigured E "startups" (startupsEndpoint subtrendId limit).

Definition fetchTrends : env -> option Z -> M value :=
  fetchTrendsWith (throw configError).

Definition fetchSubtrends : env -> string -> M value :=
  fetchSubtrendsWith (throw configError).

Definition fetchStartups : env -> string -> option Z -> M value :=
  fetchStartupsWith (throw configError).

(** The object returned by [testConnection]. *)
Record connection : Type := {
  success : bool;
  latency : option Z;
  error_message : option string
}.

Definition testConnectionWith (unconfigured : M connection) (E : env)
  : M connection :=
  fun w =>
    let startTime := now w in
    let succeeded : M connection :=
      fun w' => (Ret {| success := true;
                        latency := Some (now w' - startTime);
                        error_message := None |}, w') in
    tryCatch
      (if shouldUseMocks (conf E) then
         getMockData (mocks E) (mockDelay E) "/trends?limit=1" ;;;
         succeeded
       else
         let baseUrl := getApiBaseUrl (conf E) in
         match baseUrl with
         | Some u =>
             if negb (truthyStr baseUrl) then unconfigured
             else
               fetchWithRetry (net E) (u +:+ "/trends?limit=1") ;;;
               succeeded
         | None => unconfigured
         end)
      (fun e => ret {| success := false;
                       latency := None;
                       error_message := Some (message e) |})
      w.

Definition testConnection : env -> M connection :=
  testConnectionWith
    (ret {| success := false;
            latency := None;
            error_message := Some "API base URL not configured" |}).

(** ** Callers in the user interface

    [HeroSection] ([components/hero-section.tsx]) and the detail drawer
    ([SubtrendDetailDrawer]) keep the same three pieces of React state
    around a query function: the list shown, a loading flag and an error
    text.  A loader is modelled by the state its setters leave once the
    awaited call has settled. *)

Record listState : Type := {
  items : value;
  loading : bool;
  errorText : option string   (* the state named [error] in the source *)
}.

Definition setItems (v : value) (s : listState) : listState :=
  {| items := v; loading := loading s; errorText := errorText s |}.

Definition setLoading (b : bool) (s : listState) : listState :=
  {| items := items s; loading := b; errorText := errorText s |}.

Definition setError (e : option string) (s : listState) : listState :=
  {| items := items s; loading := loading s; errorText := e |}.

(** The state while the request is in flight: [setLoading(true)] and
    [setError(null)] have run. *)
Definition pendingState (s : listState) : listState :=
  setError None (setLoading true s).

(** The [try]/[catch]/[finally] around the awaited query. *)
Definition settle (request : M value) (s : listState) (w : world)
  : listState * world :=
  match request w with
  | (Ret d, w') => (setLoading false (setItems d (pendingState s)), w')
  | (Throw err, w') =>
      (setLoading false
         (setItems (JArr []) (setError (Some (message err)) (pendingState s))),
       w')
  end.

(** [loadTrends] of the hero section. *)
Definition loadTrends (E : env) (s : listState) (w : world)
  : listState * world :=
  settle (fetchTrends E (Some 3)) s w.

(** The effect of the drawer that loads the startups; [subtrend] is the
    identifier of the selected sub-trend, if any. *)
Definition loadStartups (E : env) (isOpen : bool) (subtrend : option string)
  (s : listState) (w : world) : listState * world :=
  match subtrend with
  | Some id =>
      if negb isOpen then (s, w)
      else settle (fetchStartups E id (Some 3)) s w
  | None => (s, w)
  end.

(** What the two components render from the state: the skeleton under
    [loading &&] and the error box under [error &&]. *)
Definition showsSkeleton (s : listState) : bool := loading s.
Definition showsError (s : listState) : bool := truthyStr (errorText s).

(** A condition [!loading && !error && test(list.length)], evaluated
    left to right: it is [false] without looking at the list while
    loading or with an error text, and otherwise reads the length of the
    list.  The answer is given for arrays only: on [null] the access
    [.length] throws in render, and on the other values that are not
    arrays it is not modelled; both are [None]. *)
Definition listGuard (test : nat -> bool) (s : listState) : option bool :=
  if loading s then Some false
  else if truthyStr (errorText s) then Some false
  else match items s with
       | JArr xs => Some (test (length xs))
       | _ => None
       end.

(** [!loading && !error && list.length === 0]: the empty notice. *)
Definition showsEmpty (s : listState) : option bool :=
  listGuard (fun n => (n =? 0)%nat) s.

(** [!loading && !error && list.length > 0]: the grid or the list. *)
Definition showsGrid (s : listState) : option bool :=
  listGuard (fun n => (0 <? n)%nat) s.

(** ** Vocabulary of the properties *)

(** The error a query function throws for a cause [e]. *)
Definition wrapped (resource : string) (e : error) : error :=
  Error ("Failed to fetch " +:+ resource +:+ ": " +:+ message e).

(** The world after the [console.error] of the [catch] block. *)
Definition complained (resource : string) (w : world) : world :=
  emit (EvConsoleError ("Error fetching " +:+ resource +:+ ":")) w.

(** The world after [setCachedData(key, d)]. *)
Definition stored (key : string) (d : value) (w : world) : world :=
  {| now := now w; cache := setCachedData (now w) key d (cache w);
     log := log w |}.

(** What a query function [f] owes its caller, for the named resource
    and endpoint, told in terms of the three things a fresh fetch
    consists of (the mock lookup, [fetchWithRetry], the decoding of the
    body).  A truthy result of the cache check is returned as it is.
    Otherwise, from the world [w1] the check left: in mock mode, a
    fixture found is stored and returned, and a lookup that finds none
    makes [f] throw the wrapped not-found error; in network mode, with
    base URL [u], a failure of [fetchWithRetry] and a failure of the
    decoding each make [f] throw the wrapped error, and only a decoded
    body is stored and returned.  Whenever [f] throws, the cache is as
    the check left it. *)
Definition wrapsFreshFailures (E : env) (resource endpoint : string)
  (f : M value) : Prop :=
  forall w : world,
    let key := getCacheKey endpoint in
    let cached := (getCachedData (now w) key (cache w)).1 in
    let w1 := (getCached key w).2 in
    (truthy cached = true -> f w = (Ret cached, w1)) /\
    (truthy cached = false ->
     (shouldUseMocks (conf E) = true ->
      let w2 := emit (EvMock endpoint) (tick (Z.of_N (mockDelay E)) w1) in
      match mockRoute (mocks E) endpoint with
      | Some d => f w = (Ret d, stored key d w2)
      | None =>
          f w = (Throw (wrapped resource (mockNotFound endpoint)),
                 complained resource w2)
          /\ cache w2 = cache w1
      end) /\
     (shouldUseMocks (conf E) = false ->
      forall u, getApiBaseUrl (conf E) = Some u ->
      match fetchWithRetry (net E) (u +:+ endpoint) w1 with
      | (Throw e, w2) =>
          f w = (Throw (wrapped resource e), complained resource w2)
          /\ cache w2 = cache w1
      | (Ret resp, w2) =>
          match body resp with
          | Throw e =>
              f w = (Throw (wrapped resource e), complained resource w2)
              /\ cache w2 = cache w1
          | Ret d => f w = (Ret d, stored key d w2)
          end
      end)).

(** The failure an attempt ends in when the network's reply reaches the
    [try] block: the rejection itself, or the error thrown for a
    response that is not [ok]. *)
Definition failureOf (rep : reply) : option error :=
  match rep with
  | Resolved r => if ok r then None else Some (httpError r)
  | Rejected e => Some e
  end.

(** The controller has not aborted, and its timer is either cleared or
    set for the instant [deadline]. *)
Definition quiet (c : controller) (deadline : Z) : Prop :=
  aborted c = false /\ (pending c = None \/ pending c = Some deadline).

(** The pause after a failed attempt of index [attempt]. *)
Definition backoff (attempt : nat) : Z :=
  if (attempt <? MAX_RETRIES)%nat then 2 ^ Z.of_nat attempt * 1000 else 0.

(** The world after an attempt that took [lat] and was retried. *)
Definition afterAttempt (url : string) (attempt : nat) (lat : N) (w : world)
  : world :=
  let w1 := tick (Z.of_N lat) (emit (EvFetch url) w) in
  if (attempt <? MAX_RETRIES)%nat
  then tick (backoff attempt) (emit (EvSleep (backoff attempt)) w1)
  else w1.

(** The shape of a status between 500 and 599 once printed. *)
Definition printed5xx (s : string) : bool :=
  match s with
  | String a (String x (String y EmptyString)) =>
      Ascii.eqb a "5" && negb (Ascii.eqb x "H") && negb (Ascii.eqb y "H")
  | _ => false
  end.

(** Every character of a string passes the test. *)
Fixpoint allChars (P : ascii -> bool) (s : string) : bool :=
  match s with
  | EmptyString => true
  | String a s' => P a && allChars P s'
  end.

(** The characters a printed integer is made of. *)
Definition numeric (a : ascii) : bool :=
  Ascii.eqb a "-" || Ascii.eqb a "0" || Ascii.eqb a "1" || Ascii.eqb a "2"
  || Ascii.eqb a "3" || Ascii.eqb a "4" || Ascii.eqb a "5" || Ascii.eqb a "6"
  || Ascii.eqb a "7" || Ascii.eqb a "8" || Ascii.eqb a "9".

(** The three courses a call of [fetchWithRetry] can take, as logged
    after the arming of the timer. *)
Definition callShapes (url : string) : list (list event) :=
  [ [EvFetch url];
    [EvFetch url; EvSleep 1000; EvFetch url];
    [EvFetch url; EvSleep 1000; EvFetch url; EvSleep 2000; EvFetch url] ].

(** The timer, while pending, lies ahead of the clock. *)
Definition ahead (c : controller) (w : world) : Prop :=
  forall d, pending c = Some d -> now w <= d.

(** The limit a trends request is made with: a limit of 0 is dropped
    like an omitted one. *)
Definition effectiveLimit (limit : option Z) : option Z :=
  match limit with
  | Some n => if n =? 0 then None else Some n
  | None => None
  end.

(** The limit a startups request is made with. *)
Definition startupsLimit (limit : option Z) : Z :=
  match limit with Some n => n | None => 3 end.

(** The state of a call that no response has reached, [deadline] being
    the instant its timer was set for: the timer is still pending and
    ahead of the clock, or it fired during a back-off sleep, which lasts
    2000 ms at most. *)
Definition unanswered (deadline : Z) (c : controller) (w : world) : Prop :=
  (aborted c = false /\ pending c = Some deadline /\ now w < deadline) \/
  (aborted c = true /\ now w < deadline + 2000).

(** ** Sample data used to run the functions *)

Module Sample.

Definition record (id : string) : value := JObj [("id", JStr id)].

Definition fx : fixtures := {|
  mockTrends := [record "defense-tech"; record "climate-solutions";
                 record "ai-infrastructure"; record "quantum"];
  mockSubtrendsDefenseTech := [record "military-drones"; record "cyber-defense"];
  mockSubtrendsClimateSolutions := [record "carbon-capture"];
  mockStartupsMilitaryDrones := [record "startup-a"; record "startup-b"];
  mockStartupsCarbon := [record "startup-c"]
|}.

(** No base URL anywhere: mock mode. *)
Definition unconfiguredSettings : settings :=
  {| VITE_API_BASE_URL := None; stored_apiBaseUrl := None;
     stored_useMocks := None |}.

(** A stored base URL and no mock override: network mode. *)
Definition liveSettings : settings :=
  {| VITE_API_BASE_URL := None;
     stored_apiBaseUrl := Some "https://api.example.test";
     stored_useMocks := None |}.

Definition respond (code : Z) (text : string) (b : outcome value) : reply :=
  Resolved {| status := code; statusText := text; body := b |}.

Definition networkError : reply :=
  Rejected {| name := "TypeError"; message := "Failed to fetch" |}.

(** A server that answers every request after [ms] milliseconds. *)
Definition always (ms : N) (r : reply) : network := fun _ => (ms, r).

(** A server that answers every request, after 100 ms, with a 503 whose
    reason phrase quotes a 404. *)
Definition quoting4xx : network :=
  always 100 (respond 503 "Upstream said HTTP 404" (Ret JNull)).

(** A server whose first answer comes after a second and whose later
    answers take a minute each; every answer is a 500. *)
Definition slowAfterFirst : network :=
  fun attempt =>
    match attempt with
    | O => (1000%N, respond 500 "Internal Server Error" (Ret JNull))
    | S _ => (60000%N, respond 500 "Internal Server Error" (Ret JNull))
    end.

Definition mockEnv : env :=
  {| conf := unconfiguredSettings; mocks := fx; mockDelay := 250%N;
     net := always 0 networkError |}.

Definition liveEnv (n : network) : env :=
  {| conf := liveSettings; mocks := fx; mockDelay := 250%N; net := n |}.

Definition start : world := {| now := 0; cache := ∅; log := [] |}.

End Sample.

(** * Properties *)

(** ** Basic facts about the monad and the world *)

Lemma world_eta (w : world) :
  {| now := now w; cache := cache w; log := log w |} = w.
Proof. by destruct w. Qed.

Lemma expired_iff (t ts : Z) :
  (t - ts >? CACHE_DURATION) = true <-> t - ts > CACHE_DURATION.
Proof. rewrite Z.gtb_ltb, Z.ltb_lt. lia. Qed.

Lemma live_iff (t ts : Z) :
  (t - ts >? CACHE_DURATION) = false <-> t - ts <= CACHE_DURATION.
Proof. rewrite Z.gtb_ltb, Z.ltb_ge. lia. Qed.

(** ** The cache store *)

Section CacheStore.

Variables (c : gmap string entry) (k : string).

Lemma getCachedData_absent (t : Z) :
  c !! k = None -> getCachedData t k c = (JNull, c).
Proof. intros H. unfold getCachedData. by rewrite H. Qed.

Lemma getCachedData_live (t : Z) (e : entry) :
  c !! k = Some e -> t - timestamp e <= CACHE_DURATION ->
  getCachedData t k c = (data e, c).
Proof.
  intros H Hlive. unfold getCachedData. rewrite H.
  apply live_iff in Hlive. by rewrite Hlive.
Qed.

Lemma getCachedData_expired (t : Z) (e : entry) :
  c !! k = Some e -> t - timestamp e > CACHE_DURATION ->
  getCachedData t k c = (JNull, delete k c).
Proof.
  intros H Hexp. unfold getCachedData. rewrite H.
  apply expired_iff in Hexp. by rewrite Hexp.
Qed.

(** Reading one key never disturbs another. *)
Lemma getCachedData_frame (t : Z) (k' : string) :
  k' <> k -> (getCachedData t k c).2 !! k' = c !! k'.
Proof.
  intros Hne. unfold getCachedData.
  destruct (c !! k) as [e|]; [|done].
  destruct (_ >? _); simpl; [|done].
  by rewrite lookup_delete_ne.
Qed.

End CacheStore.

(** C1.  After [setCachedData k v] at time [t0], a read of [k] at time
    [t1] returns [v] and leaves the cache alone as long as
    [t1 - t0 < CACHE_DURATION]; once [t1 - t0] exceeds [CACHE_DURATION]
    the same read returns [null] and has removed the entry, so that no
    read ever hands out an entry it found expired. *)
Theorem cache_put_then_get (c : gmap string entry) (k : string) (v : value)
  (t0 t1 : Z) :
  let c1 := setCachedData t0 k v c in
  (t1 - t0 < CACHE_DURATION -> getCachedData t1 k c1 = (v, c1)) /\
  (t1 - t0 > CACHE_DURATION ->
     getCachedData t1 k c1 = (JNull, delete k c1) /\
     (getCachedData t1 k c1).2 !! k = None) /\
  (forall (c' : gmap string entry) (e : entry),
     c' !! k = Some e -> t1 - timestamp e > CACHE_DURATION ->
     (getCachedData t1 k c').1 = JNull /\
     (getCachedData t1 k c').2 !! k = None).
Proof.
  intros c1.
  assert (Hput : c1 !! k = Some {| data := v; timestamp := t0 |})
    by apply lookup_insert_eq.
  split; [|split].
  - intros Hlt.
    rewrite (getCachedData_live _ _ _ _ Hput); [done | simpl; lia].
  - intros Hgt.
    rewrite (getCachedData_expired _ _ _ _ Hput); [| simpl; lia].
    split; [done | apply lookup_delete_eq].
  - intros c' e He Hgt.
    rewrite (getCachedData_expired _ _ _ _ He Hgt). simpl.
    split; [done | apply lookup_delete_eq].
Qed.

Lemma cache_put_then_get_witness :
  getCachedData 299999 "api:/trends" (setCachedData 0 "api:/trends" (JArr []) ∅)
  = (JArr [], setCachedData 0 "api:/trends" (JArr []) ∅)
  /\ (getCachedData 300001 "api:/trends"
        (setCachedData 0 "api:/trends" (JArr []) ∅)).1 = JNull.
Proof.
  pose proof (cache_put_then_get ∅ "api:/trends" (JArr []) 0 299999) as H1.
  pose proof (cache_put_then_get ∅ "api:/trends" (JArr []) 0 300001) as H2.
  split.
  - apply H1. unfold CACHE_DURATION. lia.
  - destruct H2 as (_ & H2 & _). rewrite (proj1 (H2 ltac:(unfold CACHE_DURATION; lia))).
    reflexivity.
Defined.

(** At exactly [CACHE_DURATION] milliseconds the entry is still served:
    the test of the source is a strict [>]. *)
Lemma cache_boundary (c : gmap string entry) (k : string) (v : value) (t0 : Z) :
  getCachedData (t0 + CACHE_DURATION) k (setCachedData t0 k v c)
  = (v, setCachedData t0 k v c).
Proof.
  rewrite (getCachedData_live _ _ _ {| data := v; timestamp := t0 |});
    [done | apply lookup_insert_eq | simpl; lia].
Qed.

(** [clearCache] empties the store whatever it held. *)
Lemma clearCache_get (w : world) (k : string) :
  (getCached k (clearCache w).2).1 = Ret JNull.
Proof. unfold getCached, clearCache, getCachedData. simpl. by rewrite lookup_empty. Qed.

(** ** The settings resolver *)

Lemma getApiBaseUrl_truthy_or_null (s : settings) :
  getApiBaseUrl s = None \/
  exists u, getApiBaseUrl s = Some u /\ u <> "".
Proof.
  unfold getApiBaseUrl, orElse.
  destruct (VITE_API_BASE_URL s) as [a|] eqn:Ha; simpl.
  - destruct (String.eqb_spec a "") as [->|Hne]; simpl.
    + destruct (stored_apiBaseUrl s) as [b|] eqn:Hb; simpl; [|by left].
      destruct (String.eqb_spec b "") as [->|Hne]; simpl; [by left|].
      right. eauto.
    + right. exists a. split; [|done].
      destruct (String.eqb_spec a ""); [done|]. simpl.
      by destruct (String.eqb_spec a "").
  - destruct (stored_apiBaseUrl s) as [b|] eqn:Hb; simpl; [|by left].
    destruct (String.eqb_spec b "") as [->|Hne]; simpl; [by left|].
    right. eauto.
Qed.

Lemma not_mocks_base_url (s : settings) :
  shouldUseMocks s = false ->
  exists u, getApiBaseUrl s = Some u /\ truthyStr (getApiBaseUrl s) = true.
Proof.
  unfold shouldUseMocks. intros H.
  apply orb_false_iff in H as [H _]. apply negb_false_iff in H.
  destruct (getApiBaseUrl s) as [u|] eqn:Hu; [eauto | done].
Qed.

(** In the non-mock branch the guarded fetch is the network path. *)
Lemma freshFetch_live (k : M value) (E : env) (endpoint cacheKey u : string) :
  shouldUseMocks (conf E) = false ->
  getApiBaseUrl (conf E) = Some u ->
  freshFetch k E endpoint cacheKey =
    (resp <- fetchWithRetry (net E) (u +:+ endpoint) ;;
     d <- json resp ;;
     setCached cacheKey d ;;;
     ret d).
Proof.
  intros Hm Hu. unfold freshFetch. rewrite Hm.
  destruct (not_mocks_base_url _ Hm) as (u' & Hu' & Ht).
  rewrite Ht, Hu. reflexivity.
Qed.

Lemma freshFetch_mock (k : M value) (E : env) (endpoint cacheKey : string) :
  shouldUseMocks (conf E) = true ->
  freshFetch k E endpoint cacheKey =
    (d <- getMockData (mocks E) (mockDelay E) endpoint ;;
     setCached cacheKey d ;;;
     ret d).
Proof. intros Hm. unfold freshFetch. by rewrite Hm. Qed.

Lemma freshFetch_branch_dead (k1 k2 : M value) (E : env)
  (endpoint cacheKey : string) :
  freshFetch k1 E endpoint cacheKey = freshFetch k2 E endpoint cacheKey.
Proof.
  destruct (shouldUseMocks (conf E)) eqn:Hm.
  - by rewrite !freshFetch_mock.
  - destruct (not_mocks_base_url _ Hm) as (u & Hu & _).
    by rewrite !(freshFetch_live _ _ _ _ u).
Qed.

Lemma query_branch_dead (k1 k2 : M value) (E : env)
  (resource endpoint : string) :
  query k1 E resource endpoint = query k2 E resource endpoint.
Proof. unfold query. by rewrite (freshFetch_branch_dead k1 k2). Qed.

(** C9.  With the settings fixed for the duration of a call, the branch
    [if (!baseUrl)] of the non-mock path is never taken: whenever
    [shouldUseMocks] answers [false], [getApiBaseUrl] answers a non-empty
    string; consequently [fetchTrends], [fetchSubtrends], [fetchStartups]
    and [testConnection] behave the same whatever that branch is made to
    do, so the configuration error of that branch is never raised. *)
Theorem config_error_unreachable (E : env) :
  (shouldUseMocks (conf E) = false ->
   exists u, getApiBaseUrl (conf E) = Some u /\ u <> "") /\
  (forall k limit, fetchTrendsWith k E limit = fetchTrends E limit) /\
  (forall k trendId, fetchSubtrendsWith k E trendId = fetchSubtrends E trendId) /\
  (forall k subtrendId limit,
      fetchStartupsWith k E subtrendId limit = fetchStartups E subtrendId limit) /\
  (forall k, testConnectionWith k E = testConnection E).
Proof.
  split; [|repeat split; intros].
  - intros Hm.
    destruct (getApiBaseUrl_truthy_or_null (conf E)) as [Hn|H]; [|done].
    destruct (not_mocks_base_url _ Hm) as (u & Hu & _). congruence.
  - apply query_branch_dead.
  - apply query_branch_dead.
  - apply query_branch_dead.
  - unfold testConnection, testConnectionWith.
    destruct (shouldUseMocks (conf E)) eqn:Hm; [done|].
    destruct (not_mocks_base_url _ Hm) as (u & Hu & Ht).
    by rewrite Ht, Hu.
Qed.

Lemma config_error_unreachable_witness :
  exists u, getApiBaseUrl Sample.liveSettings = Some u /\ u <> "".
Proof.
  exact (proj1 (config_error_unreachable
                  (Sample.liveEnv (Sample.always 0 Sample.networkError)))
               eq_refl).
Defined.

(** ** Cache hits in the query functions *)

Lemma getCached_live (w : world) (k : string) (e : entry) :
  cache w !! k = Some e -> now w - timestamp e <= CACHE_DURATION ->
  getCached k w = (Ret (data e), w).
Proof.
  intros He Hlive. unfold getCached.
  rewrite (getCachedData_live _ _ _ _ He Hlive). by rewrite world_eta.
Qed.

Lemma query_hit (k : M value) (E : env) (resource endpoint : string)
  (w : world) (e : entry) :
  cache w !! getCacheKey endpoint = Some e ->
  now w - timestamp e <= CACHE_DURATION ->
  truthy (data e) = true ->
  query k E resource endpoint w = (Ret (data e), w).
Proof.
  intros He Hlive Ht. unfold query, bind.
  rewrite (getCached_live _ _ _ He Hlive). by rewrite Ht.
Qed.

(** [query] on a miss runs the guarded fresh fetch from the world the
    cache check left. *)
Lemma query_miss (k : M value) (E : env) (resource endpoint : string)
  (w : world) :
  truthy (getCachedData (now w) (getCacheKey endpoint) (cache w)).1 = false ->
  query k E resource endpoint w =
    tryCatch (freshFetch k E endpoint (getCacheKey endpoint))
             (rethrow resource) (getCached (getCacheKey endpoint) w).2.
Proof.
  intros Hmiss. unfold query, bind, getCached.
  destruct (getCachedData _ _ _) as [v c']. simpl in *. by rewrite Hmiss.
Qed.

(** C4, as the code has it.  When the cache holds an entry for the key
    of the request that has not expired and whose payload is truthy
    (every JSON array and object is, the empty array included), the
    query function returns that payload and leaves the world exactly as
    it was: nothing is logged (no mock read, no [fetch], no sleep), the
    clock has not moved and the cache is unchanged. *)
Theorem cache_hit_short_circuits (E : env) (w : world) (e : entry) :
  now w - timestamp e <= CACHE_DURATION ->
  truthy (data e) = true ->
  (forall limit,
      cache w !! getCacheKey (trendsEndpoint limit) = Some e ->
      fetchTrends E limit w = (Ret (data e), w)) /\
  (forall trendId,
      cache w !! getCacheKey (subtrendsEndpoint trendId) = Some e ->
      fetchSubtrends E trendId w = (Ret (data e), w)) /\
  (forall subtrendId limit,
      cache w !! getCacheKey (startupsEndpoint subtrendId limit) = Some e ->
      fetchStartups E subtrendId limit w = (Ret (data e), w)).
Proof.
  intros Hlive Ht. repeat split; intros; by apply query_hit.
Qed.

Lemma cache_hit_short_circuits_witness :
  let w := {| now := 1000;
              cache := {[ "api:/trends?limit=3" :=
                          {| data := JArr []; timestamp := 0 |} ]};
              log := [] |} in
  fetchTrends Sample.mockEnv (Some 3) w = (Ret (JArr []), w).
Proof.
  intros w.
  refine (proj1 (cache_hit_short_circuits Sample.mockEnv w
                   {| data := JArr []; timestamp := 0 |} _ _) (Some 3) _).
  - vm_compute. discriminate.
  - reflexivity.
  - reflexivity.
Defined.

(** A falsy payload defeats the test [if (cached)]: a server that answers
    [null] has its answer cached by the first call, and the second call,
    made at once, finds the live entry and goes to the network again. *)
Lemma null_payload_is_refetched :
  let E := Sample.liveEnv (Sample.always 100 (Sample.respond 200 "OK" (Ret JNull))) in
  let w1 := (fetchTrends E (Some 3) Sample.start).2 in
  let e := {| data := JNull; timestamp := 100 |} in
  cache w1 !! getCacheKey (trendsEndpoint (Some 3)) = Some e /\
  now w1 - timestamp e <= CACHE_DURATION /\
  fetchTrends E (Some 3) w1 <> (Ret (data e), w1) /\
  log (fetchTrends E (Some 3) w1).2 =
    log w1 ++ [EvArmTimeout 10000;
               EvFetch "https://api.example.test/trends?limit=3"].
Proof.
  simpl. repeat split.
  - vm_compute. discriminate.
  - vm_compute. intros H. discriminate H.
Qed.

(** ** What a fresh fetch leaves in the cache *)

Lemma getCachedData_truthy (t : Z) (k : string) (c : gmap string entry) :
  truthy (getCachedData t k c).1 = true ->
  exists e, c !! k = Some e /\ t - timestamp e <= CACHE_DURATION /\
            getCachedData t k c = (data e, c).
Proof.
  unfold getCachedData. destruct (c !! k) as [e|]; [|done].
  destruct (_ >? _) eqn:Hx; [done|]. intros _.
  exists e. by rewrite <- live_iff.
Qed.

Lemma freshFetch_success (E : env) (endpoint cacheKey : string)
  (w w2 : world) (v : value) :
  freshFetch (throw configError) E endpoint cacheKey w = (Ret v, w2) ->
  cache w2 !! cacheKey = Some {| data := v; timestamp := now w2 |}.
Proof.
  destruct (shouldUseMocks (conf E)) eqn:Hm.
  - rewrite freshFetch_mock by done. unfold bind, getMockData.
    destruct (mockRoute _ _); [|done].
    unfold setCached, ret. intros [= <- <-]. apply lookup_insert_eq.
  - destruct (not_mocks_base_url _ Hm) as (u & Hu & _).
    rewrite (freshFetch_live _ _ _ _ u) by done. unfold bind.
    destruct (fetchWithRetry _ _ _) as [[resp|e] w']; [|done].
    unfold json. destruct (body resp); [|done].
    unfold setCached, ret. intros [= <- <-]. apply lookup_insert_eq.
Qed.

(** Whatever a query function returns sits in the cache, under the key
    of the request, when the function returns. *)
Lemma query_result_cached (E : env) (resource endpoint : string)
  (w w1 : world) (v : value) :
  query (throw configError) E resource endpoint w = (Ret v, w1) ->
  truthy v = true ->
  exists e, cache w1 !! getCacheKey endpoint = Some e /\ data e = v /\
            now w1 - timestamp e <= CACHE_DURATION.
Proof.
  intros Hq Ht.
  destruct (truthy (getCachedData (now w) (getCacheKey endpoint) (cache w)).1)
    eqn:Hc.
  - destruct (getCachedData_truthy _ _ _ Hc) as (e & He & Hlive & Hg).
    assert (Hd : truthy (data e) = true) by (by rewrite Hg in Hc).
    rewrite (query_hit _ _ _ _ _ _ He Hlive Hd) in Hq.
    injection Hq as <- <-. eauto.
  - rewrite query_miss in Hq by done. unfold tryCatch in Hq.
    destruct (freshFetch _ _ _ _ _) as [[v'|e'] w2] eqn:Hf.
    + injection Hq as <- <-.
      apply freshFetch_success in Hf.
      eexists. split; [exact Hf|]. simpl. split; [done|].
      unfold CACHE_DURATION. lia.
    + unfold rethrow, bind, consoleError, throw in Hq. done.
Qed.

(** The second of two identical calls is silent: made after a first call
    that returned a truthy payload, and before the entry expires, it
    returns the same payload and changes nothing. *)
Lemma second_call_is_silent (E : env) (resource endpoint : string)
  (w w1 : world) (v : value) :
  query (throw configError) E resource endpoint w = (Ret v, w1) ->
  truthy v = true ->
  query (throw configError) E resource endpoint w1 = (Ret v, w1).
Proof.
  intros Hq Ht.
  destruct (query_result_cached _ _ _ _ _ _ Hq Ht) as (e & He & <- & Hlive).
  by apply query_hit.
Qed.

(** ** Endpoints built from a limit *)

(** C10.  [fetchTrends(0)] and [fetchTrends()] are the same request: both
    build the endpoint [/trends], hence the same cache key, and are equal
    as computations, so each finds what the other cached; in mock mode,
    on a cache miss, both return the first three records of the trends
    fixture (three records, not none, when the fixture has that many). *)
Theorem zero_limit_is_no_limit (E : env) (w : world) :
  trendsEndpoint (Some 0) = "/trends" /\
  trendsEndpoint None = "/trends" /\
  getCacheKey (trendsEndpoint (Some 0)) = getCacheKey (trendsEndpoint None) /\
  fetchTrends E (Some 0) w = fetchTrends E None w /\
  (forall v w1, fetchTrends E None w = (Ret v, w1) -> truthy v = true ->
     fetchTrends E (Some 0) w1 = (Ret v, w1)) /\
  (forall v w1, fetchTrends E (Some 0) w = (Ret v, w1) -> truthy v = true ->
     fetchTrends E None w1 = (Ret v, w1)) /\
  (shouldUseMocks (conf E) = true ->
   truthy (getCachedData (now w) "api:/trends" (cache w)).1 = false ->
   (fetchTrends E (Some 0) w).1 = Ret (JArr (slice0 3 (mockTrends (mocks E)))) /\
   ((3 <= length (mockTrends (mocks E)))%nat ->
    length (slice0 3 (mockTrends (mocks E))) = 3%nat)).
Proof.
  repeat split.
  - intros v w1 Hq Ht. by apply (second_call_is_silent _ _ _ _ _ _ Hq Ht).
  - intros v w1 Hq Ht. by apply (second_call_is_silent _ _ _ _ _ _ Hq Ht).
  - unfold fetchTrends, fetchTrendsWith.
    change (trendsEndpoint (Some 0)) with "/trends".
    rewrite query_miss by done.
    rewrite freshFetch_mock by done.
    by unfold tryCatch, bind, getMockData, getCached;
      destruct (getCachedData _ _ _).
  - intros Hlen. unfold slice0. rewrite length_take. lia.
Qed.

Lemma zero_limit_is_no_limit_witness :
  (fetchTrends Sample.mockEnv (Some 0) Sample.start).1
  = Ret (JArr (slice0 3 (mockTrends Sample.fx)))
  /\ length (slice0 3 (mockTrends Sample.fx)) = 3%nat.
Proof.
  destruct (zero_limit_is_no_limit Sample.mockEnv Sample.start)
    as (_ & _ & _ & _ & _ & _ & H).
  destruct (H eq_refl eq_refl) as [H1 H2].
  split; [exact H1 | apply H2; simpl; lia].
Defined.

(** ** The retrying client: strings of the error test *)

Lemma prefix_append (p s r : string) :
  String.prefix p s = true -> String.prefix p (s +:+ r) = true.
Proof.
  revert s. induction p as [|a p IH]; intros s H.
  - by destruct (s +:+ r).
  - destruct s as [|b s]; [done|].
    change (String b s +:+ r) with (String b (s +:+ r)).
    simpl in *. destruct (Ascii.ascii_dec a b); [by apply IH | done].
Qed.

Lemma includes_prefix (p s : string) :
  String.prefix p s = true -> includes p s = true.
Proof.
  intros H.
  assert (Hunfold : includes p s =
            String.prefix p s ||
            match s with EmptyString => false | String _ s' => includes p s' end)
    by (by destruct s).
  by rewrite Hunfold, H.
Qed.

Lemma showNumber_4xx (n : Z) :
  400 <= n <= 499 -> String.prefix "4" (showNumber n) = true.
Proof.
  intros Hn.
  assert (Hall : forallb (fun k => String.prefix "4" (showNumber (400 + Z.of_nat k)))
                         (seq 0 100) = true) by (vm_compute; reflexivity).
  rewrite forallb_forall in Hall.
  specialize (Hall (Z.to_nat (n - 400))).
  replace (400 + Z.of_nat (Z.to_nat (n - 400))) with n in Hall by lia.
  apply Hall. apply in_seq. lia.
Qed.

(** Every 4xx response becomes an error that the loop does not retry. *)
Lemma noRetry_4xx (r : response) :
  400 <= status r <= 499 -> ok r = false /\ noRetry (httpError r) = true.
Proof.
  intros Hs. split.
  - unfold ok. apply andb_false_iff. right. apply Z.leb_gt. lia.
  - unfold noRetry, httpError. simpl name. simpl message.
    apply orb_true_iff. right. apply includes_prefix.
    change (String.prefix "4" (showNumber (status r) +:+ ": " +:+ statusText r) = true).
    apply prefix_append. by apply showNumber_4xx.
Qed.

Lemma showNumber_5xx (n : Z) :
  500 <= n <= 599 -> printed5xx (showNumber n) = true.
Proof.
  intros Hn.
  assert (Hall : forallb (fun k => printed5xx (showNumber (500 + Z.of_nat k)))
                         (seq 0 100) = true) by (vm_compute; reflexivity).
  rewrite forallb_forall in Hall.
  specialize (Hall (Z.to_nat (n - 500))).
  replace (500 + Z.of_nat (Z.to_nat (n - 500))) with n in Hall by lia.
  apply Hall. apply in_seq. lia.
Qed.

Lemma includes_cons (p : string) (a : ascii) (s : string) :
  includes p (String a s) = String.prefix p (String a s) || includes p s.
Proof. reflexivity. Qed.

Lemma prefix_cons (a b : ascii) (p s : string) :
  String.prefix (String a p) (String b s) =
  if Ascii.ascii_dec a b then String.prefix p s else false.
Proof. reflexivity. Qed.

Lemma includes_skip (a : ascii) (s : string) :
  a <> "H"%char -> includes "HTTP 4" (String a s) = includes "HTTP 4" s.
Proof.
  intros Hne. rewrite includes_cons, prefix_cons.
  destruct (Ascii.ascii_dec "H" a); [congruence | done].
Qed.

(** A 5xx response is retried, provided its status text does not itself
    contain the marker the loop searches for. *)
Lemma noRetry_5xx (r : response) :
  500 <= status r <= 599 ->
  includes "HTTP 4" (statusText r) = false ->
  ok r = false /\ noRetry (httpError r) = false.
Proof.
  intros Hs Htext. split.
  - unfold ok. apply andb_false_iff. right. apply Z.leb_gt. lia.
  - pose proof (showNumber_5xx _ Hs) as H5.
    unfold noRetry, httpError. simpl name. simpl message.
    destruct (showNumber (status r)) as [|a [|x [|y [|z d]]]]; try discriminate H5.
    simpl in H5.
    apply andb_true_iff in H5 as [H5 Hy]. apply andb_true_iff in H5 as [Ha Hx].
    apply Ascii.eqb_eq in Ha as ->.
    apply negb_true_iff, Ascii.eqb_neq in Hx, Hy.
    change ("HTTP " +:+ String "5" (String x (String y "")) +:+ ": " +:+ statusText r)
      with (String "H" (String "T" (String "T" (String "P" (String " "
             (String "5" (String x (String y (String ":" (String " "
                (statusText r))))))))))).
    rewrite includes_cons.
    match goal with
    | |- context [String.prefix ?p ?s] =>
        replace (String.prefix p s) with false by reflexivity
    end.
    rewrite !includes_skip by (done || discriminate).
    by rewrite Htext.
Qed.

(** ** The retrying client: one iteration of the loop *)

Section Iteration.

Variables (net : network) (url : string).

Lemma doFetch_delivered (a : nat) (c : controller) (w : world)
  (deadline : Z) (lat : N) (rep : reply) :
  quiet c deadline -> now w + Z.of_N lat < deadline -> net a = (lat, rep) ->
  doFetch net url a c w = (rep, c, tick (Z.of_N lat) (emit (EvFetch url) w)).
Proof.
  intros [Hab Hp] Hlt Hnet. unfold doFetch. rewrite Hab, Hnet.
  destruct Hp as [-> | ->]; [done|].
  simpl now. by rewrite (proj2 (Z.leb_gt _ _)) by lia.
Qed.

Lemma doFetch_log (a : nat) (c : controller) (w : world) :
  log (doFetch net url a c w).2 = log w ++ [EvFetch url].
Proof.
  unfold doFetch. destruct (aborted c); [done|].
  destruct (net a) as [lat rep]. destruct (pending c) as [d|]; [|done].
  by destruct (_ <=? _).
Qed.

Lemma doFetch_cache (a : nat) (c : controller) (w : world) :
  cache (doFetch net url a c w).2 = cache w.
Proof.
  unfold doFetch. destruct (aborted c); [done|].
  destruct (net a) as [lat rep]. destruct (pending c) as [d|]; [|done].
  by destruct (_ <=? _).
Qed.

(** A failure that passes the test of the [catch] block ends the call
    with that very error, in the world the attempt left. *)
Lemma attempt_not_retried (r a : nat) (last : option error) (c c1 : controller)
  (w w1 : world) (rep : reply) (e : error) :
  doFetch net url a c w = (rep, c1, w1) ->
  failureOf rep = Some e -> noRetry e = true ->
  attempts net url (S r) a last c w = (Throw e, w1).
Proof.
  intros Hf He Hno. simpl. rewrite Hf.
  destruct rep as [resp|e']; simpl in He.
  - destruct (ok resp); [done|]. injection He as <-. by rewrite Hno.
  - injection He as <-. by rewrite Hno.
Qed.

(** A retryable failure delivered in time is followed by the back-off
    pause, when one is due, and by the next iteration. *)
Lemma attempt_retried (r a : nat) (last : option error) (c : controller)
  (w : world) (deadline : Z) (lat : N) (rep : reply) (e : error) :
  quiet c deadline ->
  now w + Z.of_N lat + backoff a < deadline ->
  0 <= backoff a ->
  net a = (lat, rep) -> failureOf rep = Some e -> noRetry e = false ->
  exists c', quiet c' deadline /\
    attempts net url (S r) a last c w =
    attempts net url r (S a) (Some e) c' (afterAttempt url a lat w).
Proof.
  intros Hq Hlt Hb Hnet He Hno.
  assert (Hstep : forall c1 : controller, quiet c1 deadline ->
    exists c', quiet c' deadline /\
      (let (c2, w2) :=
         if (a <? MAX_RETRIES)%nat
         then sleep (2 ^ Z.of_nat a * 1000) c1
                (tick (Z.of_N lat) (emit (EvFetch url) w))
         else (c1, tick (Z.of_N lat) (emit (EvFetch url) w)) in
       attempts net url r (S a) (Some e) c2 w2) =
      attempts net url r (S a) (Some e) c' (afterAttempt url a lat w)).
  { intros c1 Hq1. exists c1. split; [done|].
    unfold afterAttempt, backoff in *.
    destruct (a <? MAX_RETRIES)%nat; [|done].
    unfold sleep, fireIfDue. destruct Hq1 as [Hab [Hp | Hp]]; rewrite Hp; [done|].
    simpl now. by rewrite (proj2 (Z.leb_gt _ _)) by lia. }
  simpl. rewrite (doFetch_delivered a c w deadline lat rep) by (done || lia).
  destruct rep as [resp|e']; simpl in He.
  - destruct (ok resp); [done|]. injection He as <-. rewrite Hno.
    apply Hstep. destruct Hq as [Hab _]. split; [done | by left].
  - injection He as <-. rewrite Hno. by apply Hstep.
Qed.

(** The loop never touches the cache. *)
Lemma attempts_cache (r a : nat) (last : option error) (c : controller)
  (w : world) :
  cache (attempts net url r a last c w).2 = cache w.
Proof.
  revert a last c w. induction r as [|r IH]; intros a last c w; [done|].
  simpl. pose proof (doFetch_cache a c w) as Hc.
  destruct (doFetch net url a c w) as [[rep c1] w1]. simpl in Hc.
  assert (Hcaught : forall e c', cache
     (if noRetry e then (Throw (surface (Some e)), w1)
      else let (c2, w2) :=
             if (a <? MAX_RETRIES)%nat
             then sleep (2 ^ Z.of_nat a * 1000) c' w1 else (c', w1) in
           attempts net url r (S a) (Some e) c2 w2).2 = cache w).
  { intros e c'. destruct (noRetry e); [done|].
    destruct (a <? MAX_RETRIES)%nat; simpl; by rewrite IH. }
  destruct rep as [resp|e]; [|apply Hcaught].
  destruct (ok resp); [done | apply Hcaught].
Qed.

End Iteration.

Lemma fetchWithRetry_cache (net : network) (url : string) (w : world) :
  cache (fetchWithRetry net url w).2 = cache w.
Proof. unfold fetchWithRetry. by rewrite attempts_cache. Qed.

(** ** The retrying client: whole calls *)

Lemma now_emit (e : event) (w : world) : now (emit e w) = now w.
Proof. reflexivity. Qed.

Lemma now_afterAttempt (url : string) (a : nat) (lat : N) (w : world) :
  now (afterAttempt url a lat w) = now w + Z.of_N lat + backoff a.
Proof.
  unfold afterAttempt, backoff.
  destruct (a <? MAX_RETRIES)%nat; simpl; lia.
Qed.

(** Arithmetic on the instants of a call. *)
Ltac timing :=
  rewrite ?now_afterAttempt, ?now_emit;
  change (backoff 0) with 1000; change (backoff 1) with 2000;
  change (backoff 2) with 0;
  unfold API_TIMEOUT in *; lia.

(** X26.  When each of the three attempts ends in a failure that passes
    the retry test of the [catch] block (its name is not [AbortError]
    and its message does not contain [HTTP 4]) and the timeout leaves
    room for all of them, [fetchWithRetry] calls [fetch] exactly three
    times, sleeps 1000 ms after the first failure and 2000 ms after the
    second, and throws the error of the last attempt.  Were the loop
    left with no error recorded, the error thrown would be the generic
    [Request failed]. *)
Theorem persistent_failure_exhausts_retries (net : network) (url : string)
  (w : world) (l0 l1 l2 : N) (r0 r1 r2 : reply) (e0 e1 e2 : error) :
  net 0%nat = (l0, r0) -> net 1%nat = (l1, r1) -> net 2%nat = (l2, r2) ->
  failureOf r0 = Some e0 -> failureOf r1 = Some e1 -> failureOf r2 = Some e2 ->
  noRetry e0 = false -> noRetry e1 = false -> noRetry e2 = false ->
  Z.of_N l0 + 1000 + Z.of_N l1 + 2000 + Z.of_N l2 < API_TIMEOUT ->
  fetchWithRetry net url w =
    (Throw e2,
     {| now := now w + Z.of_N l0 + 1000 + Z.of_N l1 + 2000 + Z.of_N l2;
        cache := cache w;
        log := log w ++ [EvArmTimeout API_TIMEOUT;
                         EvFetch url; EvSleep 1000;
                         EvFetch url; EvSleep 2000;
                         EvFetch url] |})
  /\ forall a c w', attempts net url 0 a None c w'
                    = (Throw (Error "Request failed"), w').
Proof.
  intros N0 N1 N2 F0 F1 F2 R0 R1 R2 Hroom. split; [|done].
  change (fetchWithRetry net url w)
    with (attempts net url 3 0 None
            {| pending := Some (now w + API_TIMEOUT); aborted := false |}
            (emit (EvArmTimeout API_TIMEOUT) w)).
  destruct (attempt_retried net url 2 0 None
              {| pending := Some (now w + API_TIMEOUT); aborted := false |}
              (emit (EvArmTimeout API_TIMEOUT) w) (now w + API_TIMEOUT)
              l0 r0 e0)
    as (c1 & Hq1 & ->); try done; try timing.
  { split; [done | by right]. }
  destruct (attempt_retried net url 1 1 (Some e0) c1
              (afterAttempt url 0 l0 (emit (EvArmTimeout API_TIMEOUT) w))
              (now w + API_TIMEOUT) l1 r1 e1)
    as (c2 & Hq2 & ->); try done; try timing.
  destruct (attempt_retried net url 0 2 (Some e1) c2
              (afterAttempt url 1 l1
                 (afterAttempt url 0 l0 (emit (EvArmTimeout API_TIMEOUT) w)))
              (now w + API_TIMEOUT) l2 r2 e2)
    as (c3 & Hq3 & ->); try done; try timing.
  simpl attempts. f_equal.
  unfold afterAttempt, backoff, tick, emit. simpl.
  f_equal; first [lia | by rewrite <- !app_assoc].
Qed.

Lemma persistent_failure_exhausts_retries_witness :
  fetchWithRetry
    (Sample.always 100 (Sample.respond 500 "Internal Server Error" (Ret JNull)))
    "https://api.example.test/trends" Sample.start
  = (Throw (Error "HTTP 500: Internal Server Error"),
     {| now := 3300; cache := ∅;
        log := [EvArmTimeout 10000;
                EvFetch "https://api.example.test/trends"; EvSleep 1000;
                EvFetch "https://api.example.test/trends"; EvSleep 2000;
                EvFetch "https://api.example.test/trends"] |}).
Proof.
  exact (proj1 (persistent_failure_exhausts_retries
    (Sample.always 100 (Sample.respond 500 "Internal Server Error" (Ret JNull)))
    "https://api.example.test/trends" Sample.start
    100 100 100 _ _ _ _ _ _
    eq_refl eq_refl eq_refl eq_refl eq_refl eq_refl eq_refl eq_refl eq_refl
    eq_refl)).
Defined.

(** C2, on the code.  A server that keeps answering 503 with a reason
    phrase that quotes an [HTTP 4..] code is a persistent 5xx failure,
    yet it gets a single attempt: the test of the [catch] block searches
    the whole message for [HTTP 4] and finds it in the status text, so
    the loop ends after the first response, with one [fetch], no sleep
    and the error of that first attempt. *)
Theorem server_error_quoting_4xx_is_not_retried :
  fetchWithRetry Sample.quoting4xx "https://api.example.test/trends"
    Sample.start
  = (Throw (Error "HTTP 503: Upstream said HTTP 404"),
     {| now := 100; cache := ∅;
        log := [EvArmTimeout 10000;
                EvFetch "https://api.example.test/trends"] |})
  /\ (forall attempt, exists resp,
        Sample.quoting4xx attempt = (100%N, Resolved resp) /\
        500 <= status resp <= 599)
  /\ Z.of_N 100 + 1000 + Z.of_N 100 + 2000 + Z.of_N 100 < API_TIMEOUT.
Proof.
  split; [reflexivity | split; [|reflexivity]].
  intros attempt. eexists. split; [reflexivity|]. simpl. lia.
Qed.

(** How the timeout reaches an attempt: the signal is already aborted,
    or the timer is due before the reply. *)
Lemma doFetch_aborted (net : network) (url : string) (a : nat)
  (c : controller) (w : world) :
  aborted c = true \/
  (exists d, pending c = Some d /\ d <= now w + Z.of_N (net a).1) ->
  (doFetch net url a c w).1.1 = Rejected abortError.
Proof.
  unfold doFetch. intros [Hab | (d & Hp & Hd)].
  - by rewrite Hab.
  - destruct (aborted c); [done|]. destruct (net a) as [lat rep].
    rewrite Hp. simpl in *. by rewrite (proj2 (Z.leb_le _ _)) by lia.
Qed.

(** C3.  Whatever the iteration, an attempt answered by a response with
    a status from 400 to 499, and an attempt rejected with an
    [AbortError] (which is what the timeout produces), end the call at
    once: the error thrown is that of this attempt, in the 4xx case the
    error [HTTP <status>: <status text>], and the world is the one the
    attempt left, with this one [fetch] logged and no sleep. *)
Theorem client_error_and_abort_stop (net : network) (url : string)
  (r a : nat) (last : option error) (c c1 : controller) (w w1 : world)
  (rep : reply) :
  doFetch net url a c w = (rep, c1, w1) ->
  (forall resp, rep = Resolved resp -> 400 <= status resp <= 499 ->
     attempts net url (S r) a last c w = (Throw (httpError resp), w1) /\
     httpError resp =
       Error ("HTTP " +:+ showNumber (status resp) +:+ ": " +:+ statusText resp) /\
     log w1 = log w ++ [EvFetch url]) /\
  (forall e, rep = Rejected e -> name e = "AbortError" ->
     attempts net url (S r) a last c w = (Throw e, w1) /\
     log w1 = log w ++ [EvFetch url]) /\
  (aborted c = true \/
   (exists d, pending c = Some d /\ d <= now w + Z.of_N (net a).1) ->
   rep = Rejected abortError).
Proof.
  intros Hf.
  pose proof (doFetch_log net url a c w) as Hlog. rewrite Hf in Hlog.
  simpl in Hlog. split; [|split].
  - intros resp -> Hs. destruct (noRetry_4xx resp Hs) as [Hok Hno].
    split; [|done].
    apply (attempt_not_retried net url r a last c c1 w w1 (Resolved resp));
      [done | by simpl; rewrite Hok | done].
  - intros e -> Hname. split; [|done].
    apply (attempt_not_retried net url r a last c c1 w w1 (Rejected e));
      [done | done |].
    unfold noRetry. by rewrite Hname.
  - intros Hab. apply (doFetch_aborted net url a c w) in Hab.
    by rewrite Hf in Hab.
Qed.

Lemma client_error_and_abort_stop_witness :
  fetchWithRetry (Sample.always 100 (Sample.respond 404 "Not Found" (Ret JNull)))
    "https://api.example.test/trends" Sample.start
  = (Throw (Error "HTTP 404: Not Found"),
     {| now := 100; cache := ∅;
        log := [EvArmTimeout 10000; EvFetch "https://api.example.test/trends"] |}).
Proof.
  refine (proj1 (proj1 (client_error_and_abort_stop
    (Sample.always 100 (Sample.respond 404 "Not Found" (Ret JNull)))
    "https://api.example.test/trends" 2 0 None
    {| pending := Some 10000; aborted := false |} _
    (emit (EvArmTimeout API_TIMEOUT) Sample.start) _ _ eq_refl) _ eq_refl _)).
  simpl. lia.
Defined.

(** The loop logs nothing but its calls of [fetch] and its sleeps; the
    timer is armed by [fetchWithRetry] itself, once, before the loop. *)
Lemma attempts_log (net : network) (url : string) (r a : nat)
  (last : option error) (c : controller) (w : world) :
  exists evs, log (attempts net url r a last c w).2 = log w ++ evs /\
    Forall (fun ev => ev = EvFetch url \/ exists ms, ev = EvSleep ms) evs.
Proof.
  revert a last c w. induction r as [|r IH]; intros a last c w.
  { exists []. by rewrite app_nil_r. }
  simpl. pose proof (doFetch_log net url a c w) as Hl.
  destruct (doFetch net url a c w) as [[rep c1] w1]. simpl in Hl.
  assert (Hcaught : forall e c', exists evs, log
     (if noRetry e then (Throw (surface (Some e)), w1)
      else let (c2, w2) :=
             if (a <? MAX_RETRIES)%nat
             then sleep (2 ^ Z.of_nat a * 1000) c' w1 else (c', w1) in
           attempts net url r (S a) (Some e) c2 w2).2 = log w ++ evs /\
     Forall (fun ev => ev = EvFetch url \/ exists ms, ev = EvSleep ms) evs).
  { intros e c'. destruct (noRetry e).
    - exists [EvFetch url]. split; [done|]. repeat constructor.
    - destruct (a <? MAX_RETRIES)%nat; simpl.
      + destruct (IH (S a) (Some e)
                    (fireIfDue c' (now w1 + 2 ^ Z.of_nat a * 1000))
                    (tick (2 ^ Z.of_nat a * 1000)
                       (emit (EvSleep (2 ^ Z.of_nat a * 1000)) w1)))
          as (evs & -> & Hevs).
        exists (EvFetch url :: EvSleep (2 ^ Z.of_nat a * 1000) :: evs).
        split.
        * simpl. rewrite Hl. by rewrite <- !app_assoc.
        * constructor; [by left|]. constructor; [right; eauto | done].
      + destruct (IH (S a) (Some e) c' w1) as (evs & -> & Hevs).
        exists (EvFetch url :: evs). split.
        * rewrite Hl. by rewrite <- app_assoc.
        * constructor; [by left | done]. }
  destruct rep as [resp|e]; [|apply Hcaught].
  destruct (ok resp); [|apply Hcaught].
  exists [EvFetch url]. split; [done|]. repeat constructor.
Qed.

(** The timer is armed once per call, before the first attempt, and the
    one controller serves every attempt. *)
Lemma fetchWithRetry_arms_once (net : network) (url : string) (w : world) :
  exists evs,
    log (fetchWithRetry net url w).2
      = log w ++ EvArmTimeout API_TIMEOUT :: evs /\
    Forall (fun ev => ev = EvFetch url \/ exists ms, ev = EvSleep ms) evs.
Proof.
  unfold fetchWithRetry.
  destruct (attempts_log net url (S MAX_RETRIES) 0 None
              {| pending := Some (now w + API_TIMEOUT); aborted := false |}
              (emit (EvArmTimeout API_TIMEOUT) w)) as (evs & Hlog & Hevs).
  exists evs. split; [|done].
  rewrite Hlog. simpl. by rewrite <- app_assoc.
Qed.

(** Once a response has cleared the timer, nothing aborts a later
    attempt, however long it takes. *)
Lemma cleared_timer_never_aborts (net : network) (url : string) (a : nat)
  (c : controller) (w : world) :
  aborted c = false -> pending c = None ->
  doFetch net url a c w =
    ((net a).2, c, tick (Z.of_N (net a).1) (emit (EvFetch url) w)).
Proof.
  intros Hab Hp. unfold doFetch. rewrite Hab, Hp. by destruct (net a).
Qed.

(** C7, on the code.  The server answers the first request with a 500
    after one second and every later one with a 500 after a minute.  The
    first response clears the timer ([clearTimeout] precedes the test of
    [response.ok]), so the two retries run unguarded: the call makes all
    three attempts, ends 124 seconds after it began, long past the
    10-second timeout, and throws the HTTP error, not a timeout error. *)
Theorem timeout_cleared_by_first_response :
  fetchWithRetry Sample.slowAfterFirst "https://api.example.test/trends"
    Sample.start
  = (Throw (Error "HTTP 500: Internal Server Error"),
     {| now := 124000; cache := ∅;
        log := [EvArmTimeout 10000;
                EvFetch "https://api.example.test/trends"; EvSleep 1000;
                EvFetch "https://api.example.test/trends"; EvSleep 2000;
                EvFetch "https://api.example.test/trends"] |})
  /\ API_TIMEOUT < 124000
  /\ name (Error "HTTP 500: Internal Server Error") <> "AbortError".
Proof. split; [reflexivity | split; [reflexivity | discriminate]]. Qed.

(** When no response arrives the timer does its work: with requests that
    fail at the network level after four and a half seconds each, the
    second attempt is aborted at the ten-second mark and ends the call. *)
Lemma timeout_without_response :
  fetchWithRetry (Sample.always 4500 Sample.networkError)
    "https://api.example.test/trends" Sample.start
  = (Throw abortError,
     {| now := 10000; cache := ∅;
        log := [EvArmTimeout 10000;
                EvFetch "https://api.example.test/trends"; EvSleep 1000;
                EvFetch "https://api.example.test/trends"] |}).
Proof. reflexivity. Qed.

(** ** Failures of the fresh fetch *)

(** A fresh fetch that fails has written nothing to the cache. *)
Lemma freshFetch_throw_cache (E : env) (endpoint cacheKey : string)
  (w w2 : world) (e : error) :
  freshFetch (throw configError) E endpoint cacheKey w = (Throw e, w2) ->
  cache w2 = cache w.
Proof.
  destruct (shouldUseMocks (conf E)) eqn:Hm.
  - rewrite freshFetch_mock by done. unfold bind, getMockData.
    destruct (mockRoute _ _); [done|]. by intros [= _ <-].
  - destruct (not_mocks_base_url _ Hm) as (u & Hu & _).
    rewrite (freshFetch_live _ _ _ _ u) by done. unfold bind.
    pose proof (fetchWithRetry_cache (net E) (u +:+ endpoint) w) as Hc.
    destruct (fetchWithRetry _ _ _) as [[resp|e'] w']; simpl in Hc.
    + unfold json. destruct (body resp); [done|]. by intros [= _ <-].
    + by intros [= _ <-].
Qed.

Lemma wrapsFreshFailures_query (E : env) (resource endpoint : string) :
  wrapsFreshFailures E resource endpoint
    (query (throw configError) E resource endpoint).
Proof.
  intros w. cbv zeta. split.
  - intros Hc. unfold query, bind, getCached.
    destruct (getCachedData _ _ _) as [v c']. simpl in *. by rewrite Hc.
  - intros Hc. rewrite query_miss by done. split.
    + intros Hm. rewrite freshFetch_mock by done.
      unfold tryCatch, bind, getMockData.
      by destruct (mockRoute _ _).
    + intros Hm u Hu. rewrite (freshFetch_live _ _ _ _ u) by done.
      unfold tryCatch, bind.
      pose proof (fetchWithRetry_cache (net E) (u +:+ endpoint)
                    (getCached (getCacheKey endpoint) w).2) as Hcache.
      destruct (fetchWithRetry _ _ _) as [[resp|e] w2]; simpl in Hcache;
        [|done].
      unfold json. by destruct (body resp).
Qed.

(** C8.  For each query function, on a cache miss, every failure of the
    fresh fetch reaches the caller as an error naming the resource: a
    mock lookup that finds no fixture, a [fetchWithRetry] that throws
    and a body that does not decode each make the function throw
    [Failed to fetch <resource>: ] followed by the message of the cause
    ([trends], [subtrends] or [startups]), after the console message and
    with the cache as the cache check left it.  A payload is returned
    only when the mock lookup or the network and the decoding produced
    it, and then it is stored; no stale or substitute data stands in for
    a failed fetch.  Only a hit of the cache check returns without
    entering that handler. *)
Theorem fresh_fetch_failures_are_wrapped (E : env) :
  (forall limit,
      wrapsFreshFailures E "trends" (trendsEndpoint limit)
        (fetchTrends E limit)) /\
  (forall trendId,
      wrapsFreshFailures E "subtrends" (subtrendsEndpoint trendId)
        (fetchSubtrends E trendId)) /\
  (forall subtrendId limit,
      wrapsFreshFailures E "startups" (startupsEndpoint subtrendId limit)
        (fetchStartups E subtrendId limit)).
Proof. split; [|split]; intros; apply wrapsFreshFailures_query. Qed.

Lemma fresh_fetch_failures_are_wrapped_witness :
  fetchSubtrends Sample.mockEnv "unknown-id" Sample.start
  = (Throw (wrapped "subtrends"
              (mockNotFound (subtrendsEndpoint "unknown-id"))),
     complained "subtrends"
       (emit (EvMock (subtrendsEndpoint "unknown-id"))
          (tick 250 Sample.start)))
  /\
  fetchStartups (Sample.liveEnv (Sample.always 100 (Sample.respond 404 "Not Found" (Ret JNull))))
    "military-drones" None Sample.start
  = (Throw (wrapped "startups" (Error "HTTP 404: Not Found")),
     complained "startups"
       {| now := 100; cache := ∅;
          log := [EvArmTimeout 10000;
                  EvFetch "https://api.example.test/subtrends/military-drones/startups?limit=3"] |})
  /\
  fetchTrends
    (Sample.liveEnv (Sample.always 100 (Sample.respond 200 "OK"
       (Throw {| name := "SyntaxError"; message := "Unexpected end of JSON input" |}))))
    (Some 3) Sample.start
  = (Throw (wrapped "trends"
              {| name := "SyntaxError"; message := "Unexpected end of JSON input" |}),
     complained "trends"
       {| now := 100; cache := ∅;
          log := [EvArmTimeout 10000;
                  EvFetch "https://api.example.test/trends?limit=3"] |}).
Proof.
  split; [|split].
  - destruct (fresh_fetch_failures_are_wrapped Sample.mockEnv)
      as (_ & Hsub & _).
    destruct (Hsub "unknown-id" Sample.start) as [_ Hmiss].
    destruct (Hmiss eq_refl) as [Hmock _].
    exact (proj1 (Hmock eq_refl)).
  - destruct (fresh_fetch_failures_are_wrapped
                (Sample.liveEnv (Sample.always 100
                   (Sample.respond 404 "Not Found" (Ret JNull)))))
      as (_ & _ & Hst).
    destruct (Hst "military-drones" None Sample.start) as [_ Hmiss].
    destruct (Hmiss eq_refl) as [_ Hnet].
    exact (proj1 (Hnet eq_refl "https://api.example.test" eq_refl)).
  - destruct (fresh_fetch_failures_are_wrapped
                (Sample.liveEnv (Sample.always 100 (Sample.respond 200 "OK"
                   (Throw {| name := "SyntaxError";
                             message := "Unexpected end of JSON input" |})))))
      as (Htr & _ & _).
    destruct (Htr (Some 3) Sample.start) as [_ Hmiss].
    destruct (Hmiss eq_refl) as [_ Hnet].
    exact (proj1 (Hnet eq_refl "https://api.example.test" eq_refl)).
Defined.

(** The three kinds of failure, seen from the caller. *)
Lemma mock_failure_wrapped :
  fetchSubtrends Sample.mockEnv "unknown-id" Sample.start
  = (Throw (Error "Failed to fetch subtrends: Mock data not found for endpoint: /trends/unknown-id/subtrends"),
     {| now := 250; cache := ∅;
        log := [EvMock "/trends/unknown-id/subtrends";
                EvConsoleError "Error fetching subtrends:"] |}).
Proof. reflexivity. Qed.

Lemma network_failure_wrapped :
  fetchStartups (Sample.liveEnv (Sample.always 100 Sample.networkError))
    "military-drones" None Sample.start
  = (Throw (Error "Failed to fetch startups: Failed to fetch"),
     {| now := 3300; cache := ∅;
        log := [EvArmTimeout 10000;
                EvFetch "https://api.example.test/subtrends/military-drones/startups?limit=3";
                EvSleep 1000;
                EvFetch "https://api.example.test/subtrends/military-drones/startups?limit=3";
                EvSleep 2000;
                EvFetch "https://api.example.test/subtrends/military-drones/startups?limit=3";
                EvConsoleError "Error fetching startups:"] |}).
Proof. reflexivity. Qed.

Lemma decode_failure_wrapped :
  fetchTrends
    (Sample.liveEnv (Sample.always 100 (Sample.respond 200 "OK"
       (Throw {| name := "SyntaxError"; message := "Unexpected end of JSON input" |}))))
    (Some 3) Sample.start
  = (Throw (Error "Failed to fetch trends: Unexpected end of JSON input"),
     {| now := 100; cache := ∅;
        log := [EvArmTimeout 10000;
                EvFetch "https://api.example.test/trends?limit=3";
                EvConsoleError "Error fetching trends:"] |}).
Proof. reflexivity. Qed.

(** ** The mock provider *)

(** With no base URL configured, [fetchTrends(3)] on an empty cache reads
    the fixture, returns its first three records and caches them; no
    [fetch] is logged. *)
Lemma mock_trends_limit_3 (fx : fixtures) (delay : N) (n : network)
  (t : Z) (l : list event) :
  fetchTrends {| conf := Sample.unconfiguredSettings; mocks := fx;
                 mockDelay := delay; net := n |}
    (Some 3) {| now := t; cache := ∅; log := l |}
  = (Ret (JArr (slice0 3 (mockTrends fx))),
     {| now := t + Z.of_N delay;
        cache := {[ "api:/trends?limit=3" :=
                    {| data := JArr (slice0 3 (mockTrends fx));
                       timestamp := t + Z.of_N delay |} ]};
        log := l ++ [EvMock "/trends?limit=3"] |}).
Proof. reflexivity. Qed.

(** C5, on the code.  In mock mode the limit is not what truncates the
    fixture: a request for one record finds no mock data at all, and a
    request for thirty gets three, because the route only looks for the
    text [limit=3] in the endpoint. *)
Theorem mock_trends_ignores_limit (fx : fixtures) (delay : N) (n : network)
  (t : Z) (l : list event) :
  fetchTrends {| conf := Sample.unconfiguredSettings; mocks := fx;
                 mockDelay := delay; net := n |}
    (Some 1) {| now := t; cache := ∅; log := l |}
  = (Throw (Error "Failed to fetch trends: Mock data not found for endpoint: /trends?limit=1"),
     {| now := t + Z.of_N delay; cache := ∅;
        log := (l ++ [EvMock "/trends?limit=1"])
                 ++ [EvConsoleError "Error fetching trends:"] |})
  /\ (fetchTrends {| conf := Sample.unconfiguredSettings; mocks := fx;
                     mockDelay := delay; net := n |}
        (Some 30) {| now := t; cache := ∅; log := l |}).1
     = Ret (JArr (slice0 3 (mockTrends fx))).
Proof. split; reflexivity. Qed.

(** The connection test runs into the same gap: in mock mode it asks the
    mock provider for [/trends?limit=1] and reports a failure. *)
Lemma mock_connection_test_fails (fx : fixtures) (delay : N) (n : network)
  (w : world) :
  (testConnection {| conf := Sample.unconfiguredSettings; mocks := fx;
                     mockDelay := delay; net := n |} w).1
  = Ret {| success := false; latency := None;
           error_message :=
             Some "Mock data not found for endpoint: /trends?limit=1" |}.
Proof. reflexivity. Qed.

(** The registered identifiers resolve, an unregistered one does not. *)
Lemma mock_subtrends_routing (fx : fixtures) (delay : N) (n : network)
  (t : Z) (l : list event) :
  let E := {| conf := Sample.unconfiguredSettings; mocks := fx;
              mockDelay := delay; net := n |} in
  let w := {| now := t; cache := ∅; log := l |} in
  (fetchSubtrends E "defense-tech" w).1 = Ret (JArr (mockSubtrendsDefenseTech fx)) /\
  (fetchSubtrends E "climate-solutions" w).1
    = Ret (JArr (mockSubtrendsClimateSolutions fx)) /\
  (fetchStartups E "military-drones" (Some 3) w).1
    = Ret (JArr (mockStartupsMilitaryDrones fx)) /\
  (fetchStartups E "carbon-capture" (Some 3) w).1
    = Ret (JArr (mockStartupsCarbon fx)) /\
  (fetchSubtrends E "unknown-id" w).1
    = Throw (Error "Failed to fetch subtrends: Mock data not found for endpoint: /trends/unknown-id/subtrends").
Proof. repeat split. Qed.

(** C6, on the code.  Identifiers outside the registered ones do resolve
    to fixture data in mock mode: the startups of [defense-tech] are
    answered with the sub-trends fixture of that trend (a startups path
    also contains [/subtrends]), the sub-trends of an identifier
    containing [limit=3] with the trends fixture, and an identifier that
    continues after a slash with the fixture of its first segment. *)
Theorem mock_routes_unregistered_identifiers (fx : fixtures) (delay : N)
  (n : network) (t : Z) (l : list event) :
  let E := {| conf := Sample.unconfiguredSettings; mocks := fx;
              mockDelay := delay; net := n |} in
  let w := {| now := t; cache := ∅; log := l |} in
  (fetchStartups E "defense-tech" (Some 3) w).1
    = Ret (JArr (mockSubtrendsDefenseTech fx)) /\
  (fetchSubtrends E "limit=3" w).1 = Ret (JArr (slice0 3 (mockTrends fx))) /\
  (fetchSubtrends E "defense-tech/other" w).1
    = Ret (JArr (mockSubtrendsDefenseTech fx)).
Proof. repeat split. Qed.

(** * Further properties of the data-access layer *)

(** ** The cache store, continued *)

Lemma getCachedData_value_local (t : Z) (k : string) (c1 c2 : gmap string entry) :
  c1 !! k = c2 !! k -> (getCachedData t k c1).1 = (getCachedData t k c2).1.
Proof.
  intros H. unfold getCachedData. rewrite H.
  destruct (c2 !! k) as [e|]; [|done]. by destruct (_ >? _).
Qed.

(** X1.  Entries under different keys do not interfere: neither a write
    to [k] nor a read of [k] (which may evict [k]) changes what a read of
    another key [k'] returns. *)
Theorem cache_keys_independent (c : gmap string entry) (k k' : string)
  (v : value) (t0 t1 t : Z) :
  k <> k' ->
  (getCachedData t k' (setCachedData t0 k v c)).1 = (getCachedData t k' c).1 /\
  (getCachedData t k' (getCachedData t1 k c).2).1 = (getCachedData t k' c).1.
Proof.
  intros Hne. split; apply getCachedData_value_local.
  - unfold setCachedData. by rewrite lookup_insert_ne.
  - by apply getCachedData_frame.
Qed.

Lemma cache_keys_independent_witness :
  (getCachedData 400000 "api:/trends"
     (setCachedData 399000 "api:/trends/defense-tech/subtrends" (JArr [])
        (setCachedData 200000 "api:/trends" (JArr [JNum 1]) ∅))).1
  = JArr [JNum 1].
Proof.
  rewrite (proj1 (cache_keys_independent
                    (setCachedData 200000 "api:/trends" (JArr [JNum 1]) ∅)
                    "api:/trends/defense-tech/subtrends" "api:/trends"
                    (JArr []) 399000 0 400000 ltac:(discriminate))).
  reflexivity.
Defined.

(** X2.  A read only ever shrinks the cache, and only at the key read:
    the cache it leaves is a sub-map of the one it found, agrees with it
    on every other key, holds for the key read either nothing or a live
    entry whose payload is the value returned, and a second read at the
    same instant returns the same value and changes nothing more. *)
Theorem cache_read_invariant (t : Z) (k : string) (c : gmap string entry) :
  (getCachedData t k c).2 ⊆ c /\
  (forall k', k' <> k -> (getCachedData t k c).2 !! k' = c !! k') /\
  (forall e, (getCachedData t k c).2 !! k = Some e ->
     t - timestamp e <= CACHE_DURATION /\ (getCachedData t k c).1 = data e) /\
  getCachedData t k (getCachedData t k c).2 = getCachedData t k c.
Proof.
  repeat split.
  - unfold getCachedData. destruct (c !! k) as [e|]; [|done].
    destruct (_ >? _); simpl; [apply delete_subseteq | done].
  - intros k' Hne. by apply getCachedData_frame.
  - revert H. unfold getCachedData. destruct (c !! k) as [e'|] eqn:He; simpl.
    + destruct (_ >? _) eqn:Hx; simpl.
      * by rewrite lookup_delete_eq.
      * rewrite He. intros [= ->]. by apply live_iff.
    + by rewrite He.
  - revert H. unfold getCachedData. destruct (c !! k) as [e'|] eqn:He; simpl.
    + destruct (_ >? _) eqn:Hx; simpl.
      * by rewrite lookup_delete_eq.
      * rewrite He. by intros [= ->].
    + by rewrite He.
  - unfold getCachedData. destruct (c !! k) as [e|] eqn:He; simpl.
    + destruct (_ >? _) eqn:Hx; simpl.
      * by rewrite lookup_delete_eq.
      * by rewrite He, Hx.
    + by rewrite He.
Qed.

Lemma cache_read_invariant_witness :
  let c : gmap string entry :=
    {[ "api:/trends" := {| data := JArr []; timestamp := 0 |} ]} in
  1000 - 0 <= CACHE_DURATION /\
  (getCachedData 1000 "api:/trends" c).1 = JArr [].
Proof.
  intros c.
  exact (proj1 (proj2 (proj2 (cache_read_invariant 1000 "api:/trends" c)))
           {| data := JArr []; timestamp := 0 |} eq_refl).
Defined.

(** X3.  The last write wins and restarts the clock of the entry: after
    two writes to the same key, a read within [CACHE_DURATION] of the
    second write returns the second payload, however old the first write
    is, and the cache is the one a single write would have left. *)
Theorem cache_last_write_wins (c : gmap string entry) (k : string)
  (v1 v2 : value) (t0 t1 t2 : Z) :
  t2 - t1 <= CACHE_DURATION ->
  getCachedData t2 k (setCachedData t1 k v2 (setCachedData t0 k v1 c))
  = (v2, setCachedData t1 k v2 c).
Proof.
  intros Hlive. unfold setCachedData. rewrite insert_insert_eq.
  by rewrite (getCachedData_live _ _ _ {| data := v2; timestamp := t1 |});
    [ | apply lookup_insert_eq | ].
Qed.

Lemma cache_last_write_wins_witness :
  getCachedData 700000 "api:/trends"
    (setCachedData 600000 "api:/trends" (JArr [JNum 2])
       (setCachedData 0 "api:/trends" (JArr [JNum 1]) ∅))
  = (JArr [JNum 2], setCachedData 600000 "api:/trends" (JArr [JNum 2]) ∅).
Proof.
  apply (cache_last_write_wins ∅ "api:/trends" (JArr [JNum 1]) (JArr [JNum 2])
           0 600000 700000).
  unfold CACHE_DURATION. lia.
Defined.

(** X4.  [clearCache] forgets everything and nothing else: the clock and
    the log are as before, every read of the cleared store returns
    [null], and each query function called next goes to its fresh fetch,
    whatever was cached and however recently. *)
Theorem clear_cache_forces_refetch (E : env) (w : world) :
  now (clearCache w).2 = now w /\ log (clearCache w).2 = log w /\
  (forall k, getCached k (clearCache w).2 = (Ret JNull, (clearCache w).2)) /\
  (forall resource endpoint,
     query (throw configError) E resource endpoint (clearCache w).2
     = tryCatch (freshFetch (throw configError) E endpoint (getCacheKey endpoint))
                (rethrow resource) (clearCache w).2).
Proof.
  assert (Hget : forall k, getCached k (clearCache w).2
                           = (Ret JNull, (clearCache w).2)).
  { intros k. unfold getCached, clearCache, getCachedData. simpl.
    by rewrite lookup_empty. }
  split; [done|]. split; [done|]. split; [exact Hget|].
  intros resource endpoint. rewrite query_miss.
  - by rewrite Hget.
  - unfold clearCache, getCachedData. simpl. by rewrite lookup_empty.
Qed.

(** ** The settings resolver, continued *)

(** X5.  Precedence of the base URL: the build-time value is used when it
    is a non-empty string; otherwise the stored value is used when it is
    a non-empty string; otherwise there is none.  An empty string counts
    as absent in both places. *)
Theorem base_url_precedence (s : settings) (u : string) :
  getApiBaseUrl s = Some u <->
  (VITE_API_BASE_URL s = Some u /\ u <> "") \/
  (truthyStr (VITE_API_BASE_URL s) = false /\
   stored_apiBaseUrl s = Some u /\ u <> "").
Proof.
  unfold getApiBaseUrl, orElse.
  destruct (VITE_API_BASE_URL s) as [a|], (stored_apiBaseUrl s) as [b|];
    simpl;
    repeat match goal with
           | |- context [String.eqb ?x ""] =>
               destruct (String.eqb_spec x ""); subst; simpl
           end;
    split; intros H;
    repeat match goal with
           | H : _ \/ _ |- _ => destruct H
           | H : _ /\ _ |- _ => destruct H
           | H : Some _ = Some _ |- _ => injection H as ->
           end;
    try discriminate; try congruence; auto.
Qed.

Lemma base_url_precedence_witness :
  getApiBaseUrl Sample.liveSettings = Some "https://api.example.test".
Proof.
  apply (proj2 (base_url_precedence Sample.liveSettings
                  "https://api.example.test")).
  right. repeat split. discriminate.
Defined.

(** X6.  Mock mode is chosen exactly when no base URL resolves or the
    stored flag is the very string [true]; any other stored text leaves
    a configured installation on the network. *)
Theorem mocks_decision (s : settings) :
  shouldUseMocks s = true <->
  getApiBaseUrl s = None \/ stored_useMocks s = Some "true".
Proof.
  unfold shouldUseMocks. rewrite orb_true_iff, negb_true_iff.
  assert (H1 : truthyStr (getApiBaseUrl s) = false <-> getApiBaseUrl s = None).
  { destruct (getApiBaseUrl_truthy_or_null s) as [->|(u & -> & Hu)]; simpl.
    - done.
    - destruct (String.eqb_spec u ""); [done|]. simpl. split; discriminate. }
  assert (H2 : isTrueStr (stored_useMocks s) = true
               <-> stored_useMocks s = Some "true").
  { destruct (stored_useMocks s) as [x|]; simpl; [|done].
    destruct (String.eqb_spec x "true"); split; congruence. }
  by rewrite H1, H2.
Qed.

Lemma mocks_decision_witness :
  shouldUseMocks Sample.unconfiguredSettings = true.
Proof.
  apply (proj2 (mocks_decision Sample.unconfiguredSettings)).
  left. reflexivity.
Defined.

(** ** Strings: printed numbers and searches across a concatenation *)

Lemma string_of_uint_numeric (d : Decimal.uint) :
  allChars numeric (NilEmpty.string_of_uint d) = true.
Proof. induction d; simpl; by rewrite ?IHd. Qed.

Lemma showNumber_numeric (n : Z) : allChars numeric (showNumber n) = true.
Proof.
  unfold showNumber, NilZero.string_of_int, NilZero.string_of_uint.
  destruct (Z.to_int n) as [d|d]; destruct d;
    try reflexivity; apply (string_of_uint_numeric (_ _)) ||
    (simpl; by rewrite ?string_of_uint_numeric).
Qed.

Lemma showNumber_nonempty (n : Z) : showNumber n <> "".
Proof.
  unfold showNumber, NilZero.string_of_int, NilZero.string_of_uint.
  destruct (Z.to_int n) as [d|d]; destruct d; discriminate.
Qed.

(** Printing is injective: the text determines the number. *)
Lemma showNumber_inj (n m : Z) : showNumber n = showNumber m -> n = m.
Proof.
  assert (Hnn : forall z, Z.to_int z <> Decimal.Pos Decimal.Nil /\
                          Z.to_int z <> Decimal.Neg Decimal.Nil).
  { intros [|p|p]; simpl; split; try discriminate;
      intros [= H]; by apply Unsigned.to_uint_nonnil in H. }
  intros H. unfold showNumber in H.
  apply (f_equal NilZero.int_of_string) in H.
  rewrite !NilZero.isi in H by apply Hnn.
  injection H as H. apply (f_equal Z.of_int) in H.
  by rewrite !DecimalZ.of_to in H.
Qed.

Lemma append_cons (a : ascii) (s t : string) :
  String a s +:+ t = String a (s +:+ t).
Proof. reflexivity. Qed.

Lemma append_nil (t : string) : "" +:+ t = t.
Proof. reflexivity. Qed.

Lemma append_inj_l (p s t : string) : p +:+ s = p +:+ t -> s = t.
Proof.
  induction p as [|a p IH]; [done|].
  rewrite !append_cons. intros [= H]. by apply IH.
Qed.

(** A search for a text beginning with [c] passes over a stretch that
    has no [c] in it. *)
Lemma includes_over (c : ascii) (p s t : string) :
  allChars (fun a => negb (Ascii.eqb a c)) s = true ->
  includes (String c p) (s +:+ t) = includes (String c p) t.
Proof.
  induction s as [|a s IH]; [done|]. simpl allChars.
  intros [Ha Hs]%andb_true_iff. rewrite append_cons, includes_cons, prefix_cons.
  apply negb_true_iff, Ascii.eqb_neq in Ha.
  destruct (Ascii.ascii_dec c a); [congruence|]. by apply IH.
Qed.

Lemma allChars_impl (P Q : ascii -> bool) (s : string) :
  (forall a, P a = true -> Q a = true) ->
  allChars P s = true -> allChars Q s = true.
Proof.
  intros HPQ. induction s as [|a s IH]; [done|]. simpl.
  intros [Ha Hs]%andb_true_iff. by rewrite (HPQ _ Ha), IH.
Qed.

(** A printed number contains none of the characters that are not
    numeric. *)
Lemma showNumber_lacks (c : ascii) (n : Z) :
  numeric c = false ->
  allChars (fun a => negb (Ascii.eqb a c)) (showNumber n) = true.
Proof.
  intros Hc. apply (allChars_impl numeric); [|apply showNumber_numeric].
  intros a Ha. apply negb_true_iff, Ascii.eqb_neq. by intros ->; congruence.
Qed.

Lemma includes_append_r (p s t : string) :
  includes p t = true -> includes p (s +:+ t) = true.
Proof.
  intros H. induction s as [|a s IH]; [done|].
  rewrite append_cons, includes_cons, IH. apply orb_true_r.
Qed.

Lemma prefix_nonempty_append (p s t : string) :
  s <> "" -> String.length p = 1%nat ->
  String.prefix p (s +:+ t) = String.prefix p s.
Proof.
  destruct p as [|a [|b p]]; try done. intros Hs _.
  destruct s as [|x s]; [done|].
  rewrite append_cons, !prefix_cons.
  destruct (Ascii.ascii_dec a x); [|done].
  generalize (s +:+ t). intros y. by destruct s, y.
Qed.

(** ** The retrying client, continued *)

Lemma prefix_append_same (p q s : string) :
  String.prefix (p +:+ q) (p +:+ s) = String.prefix q s.
Proof.
  induction p as [|a p IH]; [done|].
  rewrite !append_cons, prefix_cons.
  by destruct (Ascii.ascii_dec a a).
Qed.

(** X7.  Which responses end the retries is decided on the text of the
    error: a response that is not [ok] is not retried exactly when its
    printed status begins with the digit 4 or its status text contains
    [HTTP 4] (so a 5xx whose reason phrase quotes an [HTTP 4..] code is
    not retried either). *)
Theorem retry_decision_by_text (r : response) :
  noRetry (httpError r) =
  String.prefix "4" (showNumber (status r)) || includes "HTTP 4" (statusText r).
Proof.
  unfold noRetry, httpError. simpl name. simpl message.
  change (String.eqb "Error" "AbortError") with false. rewrite orb_false_l.
  set (d := showNumber (status r)). set (t := statusText r).
  rewrite (append_cons "H" "TTP " (d +:+ ": " +:+ t)), includes_cons.
  f_equal.
  - change (String "H" ("TTP " +:+ d +:+ ": " +:+ t))
      with ("HTTP " +:+ (d +:+ ": " +:+ t)).
    change "HTTP 4" with ("HTTP " +:+ "4").
    rewrite prefix_append_same.
    apply prefix_nonempty_append; [apply showNumber_nonempty | done].
  - rewrite (includes_over "H" "TTP 4" "TTP ") by reflexivity.
    rewrite (includes_over "H" "TTP 4" d) by (by apply showNumber_lacks).
    by rewrite (includes_over "H" "TTP 4" ": ") by reflexivity.
Qed.

(** X8.  The first [ok] response ends the call, at whatever iteration
    it comes: the response itself is returned, in the world its attempt
    left, with that one [fetch] logged and no sleep after it. *)
Theorem first_ok_response_returns (net : network) (url : string)
  (r a : nat) (last : option error) (c c1 : controller) (w w1 : world)
  (resp : response) :
  doFetch net url a c w = (Resolved resp, c1, w1) ->
  ok resp = true ->
  attempts net url (S r) a last c w = (Ret resp, w1) /\
  log w1 = log w ++ [EvFetch url] /\ cache w1 = cache w.
Proof.
  intros Hf Hok.
  pose proof (doFetch_log net url a c w) as Hl.
  pose proof (doFetch_cache net url a c w) as Hc.
  rewrite Hf in Hl, Hc. simpl. by rewrite Hf, Hok.
Qed.

Lemma first_ok_response_returns_witness :
  fetchWithRetry (Sample.always 100 (Sample.respond 200 "OK" (Ret (JArr []))))
    "https://api.example.test/trends" Sample.start
  = (Ret {| status := 200; statusText := "OK"; body := Ret (JArr []) |},
     {| now := 100; cache := ∅;
        log := [EvArmTimeout 10000; EvFetch "https://api.example.test/trends"] |}).
Proof.
  exact (proj1 (first_ok_response_returns
    (Sample.always 100 (Sample.respond 200 "OK" (Ret (JArr []))))
    "https://api.example.test/trends" 2 0 None
    {| pending := Some 10000; aborted := false |} _
    (emit (EvArmTimeout API_TIMEOUT) Sample.start) _ _ eq_refl eq_refl)).
Defined.

(** X9.  A retry recovers the call: when the first attempt fails in a
    way the loop retries and the second is answered by an [ok] response,
    within the timeout, the call returns that response after exactly two
    fetches and one pause of 1000 ms. *)
Theorem retry_recovers (net : network) (url : string) (w : world)
  (l0 l1 : N) (r0 : reply) (e0 : error) (resp : response) :
  net 0%nat = (l0, r0) -> failureOf r0 = Some e0 -> noRetry e0 = false ->
  net 1%nat = (l1, Resolved resp) -> ok resp = true ->
  Z.of_N l0 + 1000 + Z.of_N l1 < API_TIMEOUT ->
  fetchWithRetry net url w =
    (Ret resp,
     {| now := now w + Z.of_N l0 + 1000 + Z.of_N l1;
        cache := cache w;
        log := log w ++ [EvArmTimeout API_TIMEOUT;
                         EvFetch url; EvSleep 1000; EvFetch url] |}).
Proof.
  intros N0 F0 R0 N1 Hok Hroom.
  change (fetchWithRetry net url w)
    with (attempts net url 3 0 None
            {| pending := Some (now w + API_TIMEOUT); aborted := false |}
            (emit (EvArmTimeout API_TIMEOUT) w)).
  destruct (attempt_retried net url 2 0 None
              {| pending := Some (now w + API_TIMEOUT); aborted := false |}
              (emit (EvArmTimeout API_TIMEOUT) w) (now w + API_TIMEOUT)
              l0 r0 e0)
    as (c1 & Hq1 & ->); try done; try timing.
  { split; [done | by right]. }
  simpl attempts.
  rewrite (doFetch_delivered net url 1 c1 _ (now w + API_TIMEOUT) l1
             (Resolved resp)); [| done | timing | done].
  rewrite Hok. f_equal.
  unfold afterAttempt, backoff, tick, emit. simpl.
  f_equal; first [lia | by rewrite <- !app_assoc].
Qed.

Lemma retry_recovers_witness :
  fetchWithRetry
    (fun attempt => match attempt with
                    | O => (100%N, Sample.networkError)
                    | S _ => (100%N, Sample.respond 200 "OK" (Ret (JArr [])))
                    end)
    "https://api.example.test/trends" Sample.start
  = (Ret {| status := 200; statusText := "OK"; body := Ret (JArr []) |},
     {| now := 1200; cache := ∅;
        log := [EvArmTimeout 10000;
                EvFetch "https://api.example.test/trends"; EvSleep 1000;
                EvFetch "https://api.example.test/trends"] |}).
Proof.
  exact (retry_recovers _ "https://api.example.test/trends" Sample.start
           100 100 Sample.networkError
           {| name := "TypeError"; message := "Failed to fetch" |}
           {| status := 200; statusText := "OK"; body := Ret (JArr []) |}
           eq_refl eq_refl eq_refl eq_refl eq_refl eq_refl).
Defined.

Lemma attempts_returns_ok (net : network) (url : string) (r a : nat)
  (last : option error) (c : controller) (w w' : world) (resp : response) :
  attempts net url r a last c w = (Ret resp, w') -> ok resp = true.
Proof.
  revert a last c w. induction r as [|r IH]; intros a last c w; [done|].
  simpl. destruct (doFetch net url a c w) as [[rep c1] w1].
  assert (Hcaught : forall e c',
     (if noRetry e then (Throw (surface (Some e)), w1)
      else let (c2, w2) :=
             if (a <? MAX_RETRIES)%nat
             then sleep (2 ^ Z.of_nat a * 1000) c' w1 else (c', w1) in
           attempts net url r (S a) (Some e) c2 w2) = (Ret resp, w') ->
     ok resp = true).
  { intros e c'. destruct (noRetry e); [done|].
    destruct (a <? MAX_RETRIES)%nat; simpl; apply IH. }
  destruct rep as [resp'|e]; [|apply Hcaught].
  destruct (ok resp') eqn:Hok; [|apply Hcaught].
  by intros [= <- <-].
Qed.

(** X10.  [fetchWithRetry] never hands a failed response to its caller:
    whatever the network does, a response it returns is [ok] (status 200
    to 299). *)
Theorem never_returns_failed_response (net : network) (url : string)
  (w w' : world) (resp : response) :
  fetchWithRetry net url w = (Ret resp, w') ->
  200 <= status resp <= 299.
Proof.
  intros H. apply attempts_returns_ok in H. unfold ok in H.
  apply andb_true_iff in H as [H1 H2]. lia.
Qed.

Lemma never_returns_failed_response_witness :
  200 <= 204 <= 299.
Proof.
  exact (never_returns_failed_response
           (Sample.always 100 (Sample.respond 204 "No Content" (Ret JNull)))
           "https://api.example.test/trends" Sample.start _
           {| status := 204; statusText := "No Content"; body := Ret JNull |}
           eq_refl).
Defined.

Lemma attempts_step (net : network) (url : string) (r a : nat)
  (last : option error) (c : controller) (w : world) :
  (exists w1, (attempts net url (S r) a last c w).2 = w1 /\
              log w1 = log w ++ [EvFetch url]) \/
  (exists e c2 w2,
     attempts net url (S r) a last c w
       = attempts net url r (S a) (Some e) c2 w2 /\
     log w2 = log w ++ EvFetch url ::
                (if (a <? MAX_RETRIES)%nat
                 then [EvSleep (2 ^ Z.of_nat a * 1000)] else [])).
Proof.
  simpl. pose proof (doFetch_log net url a c w) as Hl.
  destruct (doFetch net url a c w) as [[rep c1] w1]. simpl in Hl.
  assert (Hcaught : forall e c',
    (exists w1', (if noRetry e then (Throw (surface (Some e)), w1)
       else let (c2, w2) :=
              if (a <? MAX_RETRIES)%nat
              then sleep (2 ^ Z.of_nat a * 1000) c' w1 else (c', w1) in
            attempts net url r (S a) (Some e) c2 w2).2 = w1' /\
       log w1' = log w ++ [EvFetch url]) \/
    (exists e' c2 w2,
       (if noRetry e then (Throw (surface (Some e)), w1)
        else let (c2, w2) :=
               if (a <? MAX_RETRIES)%nat
               then sleep (2 ^ Z.of_nat a * 1000) c' w1 else (c', w1) in
             attempts net url r (S a) (Some e) c2 w2)
       = attempts net url r (S a) (Some e') c2 w2 /\
       log w2 = log w ++ EvFetch url ::
                  (if (a <? MAX_RETRIES)%nat
                   then [EvSleep (2 ^ Z.of_nat a * 1000)] else []))).
  { intros e c'. destruct (noRetry e); [left; eauto|]. right.
    destruct (a <? MAX_RETRIES)%nat; simpl.
    - eexists _, _, _. split; [reflexivity|]. simpl. rewrite Hl.
      by rewrite <- app_assoc.
    - eexists _, _, _. split; [reflexivity|]. done. }
  destruct rep as [resp|e]; [|apply Hcaught].
  destruct (ok resp); [left; eauto | apply Hcaught].
Qed.

(** X11.  The budget of a call: whatever the network does,
    [fetchWithRetry] arms its timer once and then takes one of three
    courses: one fetch; fetch, 1000 ms, fetch; or fetch, 1000 ms, fetch,
    2000 ms, fetch.  It never issues a fourth request, never sleeps more
    than 3000 ms in all, and never ends on a sleep. *)
Theorem call_budget (net : network) (url : string) (w : world) :
  exists evs,
    log (fetchWithRetry net url w).2
      = log w ++ EvArmTimeout API_TIMEOUT :: evs /\
    In evs (callShapes url).
Proof.
  unfold fetchWithRetry, callShapes.
  set (c0 := {| pending := Some (now w + API_TIMEOUT); aborted := false |}).
  set (w0 := emit (EvArmTimeout API_TIMEOUT) w).
  assert (H0 : log w0 = log w ++ [EvArmTimeout API_TIMEOUT]) by done.
  change (S MAX_RETRIES) with 3%nat.
  destruct (attempts_step net url 2 0 None c0 w0)
    as [(w1 & <- & Hl1) | (e1 & c1 & w1 & -> & Hl1)].
  { exists [EvFetch url]. split; [|by left].
    rewrite Hl1, H0. by rewrite <- app_assoc. }
  destruct (attempts_step net url 1 1 (Some e1) c1 w1)
    as [(w2 & <- & Hl2) | (e2 & c2 & w2 & -> & Hl2)].
  { exists [EvFetch url; EvSleep 1000; EvFetch url]. split; [|right; by left].
    rewrite Hl2, Hl1, H0. by rewrite <- !app_assoc. }
  destruct (attempts_step net url 0 2 (Some e2) c2 w2)
    as [(w3 & <- & Hl3) | (e3 & c3 & w3 & -> & Hl3)].
  { exists [EvFetch url; EvSleep 1000; EvFetch url; EvSleep 2000; EvFetch url].
    split; [|right; right; by left].
    rewrite Hl3, Hl2, Hl1, H0. by rewrite <- !app_assoc. }
  exists [EvFetch url; EvSleep 1000; EvFetch url; EvSleep 2000; EvFetch url].
  split; [|right; right; by left].
  simpl attempts. simpl snd. rewrite Hl3, Hl2, Hl1, H0. by rewrite <- !app_assoc.
Qed.

Lemma attempts_now (net : network) (url : string) (r a : nat)
  (last : option error) (c : controller) (w : world) :
  ahead c w -> now w <= now (attempts net url r a last c w).2.
Proof.
  revert a last c w. induction r as [|r IH]; intros a last c w Hc; [done|].
  simpl.
  assert (Hf : now w <= now (doFetch net url a c w).2 /\
               ahead (doFetch net url a c w).1.2 (doFetch net url a c w).2).
  { unfold doFetch, ahead in *. destruct (aborted c); [by split|].
    destruct (net a) as [lat rep]. destruct (pending c) as [d|] eqn:Hp.
    - specialize (Hc d eq_refl). simpl in *.
      destruct (d <=? now w + Z.of_N lat) eqn:Hd; simpl.
      + split; [lia | done].
      + apply Z.leb_gt in Hd. rewrite Hp. split; [lia|]. intros ? [= <-]. lia.
    - simpl. rewrite Hp. split; [lia | done]. }
  destruct (doFetch net url a c w) as [[rep c1] w1]. simpl in Hf.
  destruct Hf as [Hle Hc1].
  assert (Hcaught : forall e c', ahead c' w1 -> now w <= now
     (if noRetry e then (Throw (surface (Some e)), w1)
      else let (c2, w2) :=
             if (a <? MAX_RETRIES)%nat
             then sleep (2 ^ Z.of_nat a * 1000) c' w1 else (c', w1) in
           attempts net url r (S a) (Some e) c2 w2).2).
  { intros e c' Hc'. destruct (noRetry e); [done|].
    destruct (a <? MAX_RETRIES)%nat; simpl.
    - assert (0 <= 2 ^ Z.of_nat a * 1000) by (pose proof (Z.pow_nonneg 2 (Z.of_nat a)); lia).
      etransitivity; [|apply IH].
      + simpl. lia.
      + unfold ahead, fireIfDue in *. simpl.
        destruct (pending c') as [d|] eqn:Hp; [| simpl; by rewrite Hp].
        destruct (d <=? _) eqn:Hd; simpl; [done|].
        apply Z.leb_gt in Hd. rewrite Hp. intros ? [= <-]. lia.
    - etransitivity; [exact Hle | by apply IH]. }
  destruct rep as [resp|e]; [|by apply Hcaught].
  destruct (ok resp); [done|]. by apply Hcaught.
Qed.

Lemma fetchWithRetry_now (net : network) (url : string) (w : world) :
  now w <= now (fetchWithRetry net url w).2.
Proof.
  unfold fetchWithRetry. etransitivity; [|apply attempts_now].
  - simpl. lia.
  - intros d [= <-]. simpl. unfold API_TIMEOUT. lia.
Qed.

(** X12.  A call of [fetchWithRetry] leaves the cache exactly as it was
    and never moves the clock backwards, whatever the network does. *)
Theorem client_frame (net : network) (url : string) (w : world) :
  cache (fetchWithRetry net url w).2 = cache w /\
  now w <= now (fetchWithRetry net url w).2.
Proof.
  split; [apply fetchWithRetry_cache | apply fetchWithRetry_now].
Qed.

(** ** Endpoints and cache keys *)

Lemma append_inj_r (s s' t : string) : s +:+ t = s' +:+ t -> s = s'.
Proof.
  assert (Hlen : forall a b : string,
            String.length (a +:+ b) = (String.length a + String.length b)%nat).
  { intros a b. induction a as [|x a IH]; [done|].
    rewrite append_cons. simpl. by rewrite IH. }
  revert s'. induction s as [|a s IH]; intros [|b s'] H.
  - done.
  - apply (f_equal String.length) in H. rewrite append_nil, Hlen in H.
    simpl in H. lia.
  - apply (f_equal String.length) in H. rewrite append_nil, Hlen in H.
    simpl in H. lia.
  - rewrite !append_cons in H. injection H as -> H. f_equal. by apply IH.
Qed.

Lemma getCacheKey_inj (e1 e2 : string) :
  getCacheKey e1 = getCacheKey e2 -> e1 = e2.
Proof. apply append_inj_l. Qed.

Lemma trendsEndpoint_effective (limit : option Z) :
  trendsEndpoint limit =
  "/trends" +:+ match effectiveLimit limit with
                | Some n => "?limit=" +:+ showNumber n
                | None => ""
                end.
Proof.
  unfold trendsEndpoint, effectiveLimit.
  destruct limit as [n|]; [|done]. by destruct (n =? 0).
Qed.

(** X13.  Requests of different kinds never meet in the cache: the key
    is an injective function of the endpoint, and no endpoint built by
    one of [fetchTrends], [fetchSubtrends], [fetchStartups] is an
    endpoint built by another, whatever the identifiers and limits. *)
Theorem cache_keys_separate_functions (l l' : option Z) (trendId subtrendId : string) :
  (forall e1 e2, getCacheKey e1 = getCacheKey e2 -> e1 = e2) /\
  getCacheKey (trendsEndpoint l) <> getCacheKey (subtrendsEndpoint trendId) /\
  getCacheKey (trendsEndpoint l) <> getCacheKey (startupsEndpoint subtrendId l') /\
  getCacheKey (subtrendsEndpoint trendId)
    <> getCacheKey (startupsEndpoint subtrendId l').
Proof.
  split; [exact getCacheKey_inj|].
  repeat split; intros H%getCacheKey_inj; revert H;
    rewrite ?trendsEndpoint_effective;
    unfold subtrendsEndpoint, startupsEndpoint;
    rewrite ?append_cons, ?append_nil.
  - destruct (effectiveLimit l); rewrite ?append_cons, ?append_nil;
      intros [= H]; discriminate H.
  - intros [= H]; discriminate H.
  - intros [= H]; discriminate H.
Qed.

Lemma cache_keys_separate_functions_witness :
  getCacheKey (trendsEndpoint (Some 3))
  <> getCacheKey (startupsEndpoint "military-drones" (Some 3)).
Proof.
  exact (proj1 (proj2 (proj2 (cache_keys_separate_functions
                                (Some 3) (Some 3) "defense-tech"
                                "military-drones")))).
Defined.

(** X14.  Within one kind, the key tells the requests apart exactly as
    far as the endpoint does: two trends requests share a key if and only
    if their limits agree once 0 is read as no limit; two sub-trends
    requests only for the same trend; two startups requests for the same
    sub-trend only for the same limit, an omitted limit being 3. *)
Theorem cache_keys_determine_parameters :
  (forall l1 l2,
     getCacheKey (trendsEndpoint l1) = getCacheKey (trendsEndpoint l2)
     <-> effectiveLimit l1 = effectiveLimit l2) /\
  (forall id1 id2,
     getCacheKey (subtrendsEndpoint id1) = getCacheKey (subtrendsEndpoint id2)
     <-> id1 = id2) /\
  (forall id l1 l2,
     getCacheKey (startupsEndpoint id l1) = getCacheKey (startupsEndpoint id l2)
     <-> startupsLimit l1 = startupsLimit l2).
Proof.
  split; [|split].
  - intros l1 l2. rewrite !trendsEndpoint_effective. split.
    + intros H%getCacheKey_inj%append_inj_l.
      destruct (effectiveLimit l1) as [n|], (effectiveLimit l2) as [m|];
        try done; try (rewrite append_cons in H; discriminate H).
      apply append_inj_l, showNumber_inj in H. by subst.
    + by intros ->.
  - intros id1 id2. split; [|by intros ->].
    unfold subtrendsEndpoint.
    by intros H%getCacheKey_inj%append_inj_l%append_inj_r.
  - intros id l1 l2. unfold startupsEndpoint. fold (startupsLimit l1).
    fold (startupsLimit l2). split; [|by intros ->].
    intros H%getCacheKey_inj%append_inj_l%append_inj_l%append_inj_l.
    by apply showNumber_inj.
Qed.

Lemma cache_keys_determine_parameters_witness :
  getCacheKey (startupsEndpoint "military-drones" None)
  = getCacheKey (startupsEndpoint "military-drones" (Some 3)).
Proof.
  apply (proj2 (proj2 (proj2 cache_keys_determine_parameters)
                  "military-drones" None (Some 3))).
  reflexivity.
Defined.

(** ** The mock provider, continued *)


Lemma prefix_nil (s : string) : String.prefix "" s = true.
Proof. by destruct s. Qed.

(** A prefix test only looks as far as the text tested for is long. *)
Lemma prefix_long (p h t : string) :
  (String.length p <= String.length h)%nat ->
  String.prefix p (h +:+ t) = String.prefix p h.
Proof.
  revert h. induction p as [|a p IH]; intros h Hlen.
  - by rewrite !prefix_nil.
  - destruct h as [|b h]; [simpl in Hlen; lia|].
    rewrite append_cons, !prefix_cons.
    destruct (Ascii.ascii_dec a b); [|done]. apply IH. simpl in Hlen. lia.
Qed.

(** A character foreign to the text searched for cannot be part of a
    match. *)
Lemma prefix_barrier (c : ascii) (p s t : string) :
  allChars (fun a => negb (Ascii.eqb a c)) p = true ->
  String.prefix p (s +:+ String c t) = String.prefix p s.
Proof.
  revert s. induction p as [|a p IH]; intros s Hp.
  - by rewrite !prefix_nil.
  - simpl in Hp. apply andb_true_iff in Hp as [Ha Hp].
    apply negb_true_iff, Ascii.eqb_neq in Ha.
    destruct s as [|b s].
    + rewrite append_nil, prefix_cons.
      destruct (Ascii.ascii_dec a c); [congruence | done].
    + rewrite append_cons, !prefix_cons.
      destruct (Ascii.ascii_dec a b); [by apply IH | done].
Qed.

Lemma includes_nil_r (a : ascii) (p : string) : includes (String a p) "" = false.
Proof. reflexivity. Qed.

Lemma includes_barrier (c a : ascii) (p s t : string) :
  allChars (fun x => negb (Ascii.eqb x c)) (String a p) = true ->
  includes (String a p) (s +:+ String c t)
  = includes (String a p) s || includes (String a p) t.
Proof.
  intros Hp. induction s as [|b s IH].
  - rewrite append_nil, includes_cons, includes_nil_r, prefix_cons.
    simpl in Hp. apply andb_true_iff in Hp as [Ha _].
    apply negb_true_iff, Ascii.eqb_neq in Ha.
    destruct (Ascii.ascii_dec a c); [congruence | done].
  - rewrite append_cons, !includes_cons, IH.
    rewrite <- (append_cons b s (String c t)), (prefix_barrier c) by done.
    by rewrite orb_assoc.
Qed.

Lemma split_barrier (c : ascii) (s t : string) :
  allChars (fun a => negb (Ascii.eqb a c)) s = true ->
  split c (s +:+ String c t) = s :: split c t.
Proof.
  induction s as [|a s IH]; intros Hs.
  - rewrite append_nil. simpl. by rewrite Ascii.eqb_refl.
  - simpl in Hs. apply andb_true_iff in Hs as [Ha Hs].
    apply negb_true_iff in Ha.
    rewrite append_cons. simpl. by rewrite Ha, IH.
Qed.

Lemma split_plain (c : ascii) (s : string) :
  allChars (fun a => negb (Ascii.eqb a c)) s = true -> split c s = [s].
Proof.
  induction s as [|a s IH]; intros Hs; [done|].
  simpl in Hs. apply andb_true_iff in Hs as [Ha Hs].
  apply negb_true_iff in Ha. simpl. by rewrite Ha, IH.
Qed.




(** The tests of the routing on a sub-trends endpoint whose identifier
    has no slash in it. *)
Lemma subtrends_tests (id : string) :
  allChars (fun a => negb (Ascii.eqb a "/")) id = true ->
  startsWith "/trends" (subtrendsEndpoint id) = true /\
  includes "limit=3" (subtrendsEndpoint id) = includes "limit=3" id /\
  String.eqb (subtrendsEndpoint id) "/trends" = false /\
  includes "/subtrends" (subtrendsEndpoint id) = true /\
  split "/" (subtrendsEndpoint id) !! 2%nat = Some id.
Proof.
  intros Hid. unfold subtrendsEndpoint.
  split; [|split; [|split; [|split]]].
  - unfold startsWith.
    change ("/trends/" +:+ id +:+ "/subtrends")
      with ("/trends" +:+ String "/" (id +:+ "/subtrends")).
    by rewrite prefix_long.
  - rewrite (includes_over "l" "imit=3" "/trends/") by reflexivity.
    change "/subtrends" with (String "/" "subtrends").
    rewrite (includes_barrier "/") by reflexivity.
    by rewrite orb_false_r.
  - rewrite !append_cons. reflexivity.
  - apply includes_append_r, includes_append_r. reflexivity.
  - change ("/trends/" +:+ id +:+ "/subtrends")
      with ("" +:+ String "/" ("trends" +:+ String "/"
              (id +:+ String "/" "subtrends"))).
    rewrite !split_barrier by done. reflexivity.
Qed.

(** X16.  Mock routing of sub-trends, for an identifier that contains no
    slash and not the text [limit=3]: the request is served for
    [defense-tech] and for [climate-solutions], each with its own
    fixture, and ends in the not-found error for every other such
    identifier, the empty one included. *)
Theorem mock_subtrends_registered_only (fx : fixtures) (delay : N)
  (id : string) (w : world) :
  allChars (fun a => negb (Ascii.eqb a "/")) id = true ->
  includes "limit=3" id = false ->
  (getMockData fx delay (subtrendsEndpoint id) w).1 =
  if String.eqb id "defense-tech"
  then Ret (JArr (mockSubtrendsDefenseTech fx))
  else if String.eqb id "climate-solutions"
  then Ret (JArr (mockSubtrendsClimateSolutions fx))
  else Throw (mockNotFound (subtrendsEndpoint id)).
Proof.
  intros Hid Hl.
  destruct (subtrends_tests id Hid) as (H1 & H2 & H3 & H4 & H5).
  unfold getMockData, mockRoute.
  rewrite H1, H2, Hl, H3, H4, H5. cbn [orb orNext strictEq].
  destruct (String.eqb_spec id "defense-tech") as [->|Hd]; [reflexivity|].
  destruct (String.eqb_spec id "climate-solutions") as [->|Hc]; [reflexivity|].
  destruct (String.eqb_spec id "military-drones") as [->|Hm]; [reflexivity|].
  destruct (String.eqb_spec id "carbon-capture") as [->|Hcc]; [reflexivity|].
  by destruct (includes "/startups" (subtrendsEndpoint id)).
Qed.

Lemma mock_subtrends_registered_only_witness :
  (getMockData Sample.fx 250 (subtrendsEndpoint "quantum") Sample.start).1
  = Throw (mockNotFound (subtrendsEndpoint "quantum")).
Proof.
  exact (mock_subtrends_registered_only Sample.fx 250 "quantum" Sample.start
           eq_refl eq_refl).
Defined.

(** The tests of the routing on a startups endpoint whose identifier has
    no slash in it. *)
Lemma startups_tests (id : string) (limit : option Z) :
  allChars (fun a => negb (Ascii.eqb a "/")) id = true ->
  startsWith "/trends" (startupsEndpoint id limit) = false /\
  includes "/subtrends" (startupsEndpoint id limit) = true /\
  includes "/startups" (startupsEndpoint id limit) = true /\
  split "/" (startupsEndpoint id limit) !! 2%nat = Some id.
Proof.
  intros Hid. unfold startupsEndpoint.
  set (d := showNumber _).
  split; [|split; [|split]].
  - unfold startsWith.
    change ("/subtrends/" +:+ id +:+ "/startups?limit=" +:+ d)
      with ("/subtren" +:+ "ds/" +:+ id +:+ "/startups?limit=" +:+ d).
    by rewrite prefix_long by (simpl; lia).
  - apply includes_prefix.
    change ("/subtrends/" +:+ id +:+ "/startups?limit=" +:+ d)
      with ("/subtrends" +:+ String "/" (id +:+ "/startups?limit=" +:+ d)).
    by rewrite prefix_long by (simpl; lia).
  - apply includes_append_r, includes_append_r, includes_prefix.
    change ("/startups?limit=" +:+ d) with ("/startups" +:+ "?limit=" +:+ d).
    by rewrite prefix_long by (simpl; lia).
  - change ("/subtrends/" +:+ id +:+ "/startups?limit=" +:+ d)
      with ("" +:+ String "/" ("subtrends" +:+ String "/"
              (id +:+ String "/" ("startups?limit=" +:+ d)))).
    rewrite !split_barrier by done. reflexivity.
Qed.

(** X17.  Mock routing of startups, for a sub-trend identifier without a
    slash and whatever the limit: [military-drones] and [carbon-capture]
    are served with their startups fixtures; [defense-tech] and
    [climate-solutions] are served too, with the sub-trends fixtures of
    those trends, because the sub-trends test comes first and matches
    every startups path; every other identifier ends in the not-found
    error.  The limit plays no part. *)
Theorem mock_startups_routing (fx : fixtures) (delay : N) (id : string)
  (limit : option Z) (w : world) :
  allChars (fun a => negb (Ascii.eqb a "/")) id = true ->
  (getMockData fx delay (startupsEndpoint id limit) w).1 =
  if String.eqb id "defense-tech"
  then Ret (JArr (mockSubtrendsDefenseTech fx))
  else if String.eqb id "climate-solutions"
  then Ret (JArr (mockSubtrendsClimateSolutions fx))
  else if String.eqb id "military-drones"
  then Ret (JArr (mockStartupsMilitaryDrones fx))
  else if String.eqb id "carbon-capture"
  then Ret (JArr (mockStartupsCarbon fx))
  else Throw (mockNotFound (startupsEndpoint id limit)).
Proof.
  intros Hid.
  destruct (startups_tests id limit Hid) as (H1 & H2 & H3 & H4).
  unfold getMockData, mockRoute.
  rewrite H1, H2, H3, H4. cbn [orb orNext strictEq].
  destruct (String.eqb id "defense-tech"); [done|].
  destruct (String.eqb id "climate-solutions"); [done|].
  destruct (String.eqb id "military-drones"); [done|].
  by destruct (String.eqb id "carbon-capture").
Qed.

Lemma mock_startups_routing_witness :
  (getMockData Sample.fx 250 (startupsEndpoint "carbon-capture" (Some 10))
     Sample.start).1
  = Ret (JArr (mockStartupsCarbon Sample.fx)).
Proof.
  exact (mock_startups_routing Sample.fx 250 "carbon-capture" (Some 10)
           Sample.start eq_refl).
Defined.

(** ** The query functions, continued *)

(** X18.  The lifetime of a freshly fetched payload: when a query
    function misses the cache and its fresh fetch returns a truthy
    payload, the payload is stored under the key of the request with the
    instant of return as its time stamp; a repeat of the call up to
    [CACHE_DURATION] later returns it and changes nothing, and the cache
    check of a later repeat finds the entry expired and removes it. *)
Theorem fresh_result_lifetime (E : env) (resource endpoint : string)
  (w w1 : world) (v : value) :
  truthy (getCachedData (now w) (getCacheKey endpoint) (cache w)).1 = false ->
  query (throw configError) E resource endpoint w = (Ret v, w1) ->
  truthy v = true ->
  cache w1 !! getCacheKey endpoint = Some {| data := v; timestamp := now w1 |} /\
  (forall d, d <= CACHE_DURATION ->
     query (throw configError) E resource endpoint (tick d w1)
     = (Ret v, tick d w1)) /\
  (forall d, d > CACHE_DURATION ->
     getCached (getCacheKey endpoint) (tick d w1)
     = (Ret JNull, {| now := now w1 + d;
                      cache := delete (getCacheKey endpoint) (cache w1);
                      log := log w1 |})).
Proof.
  intros Hmiss Hq Ht. rewrite query_miss in Hq by done.
  unfold tryCatch in Hq.
  destruct (freshFetch _ _ _ _ _) as [[v'|e'] w2] eqn:Hf;
    [| by unfold rethrow, bind, consoleError, throw in Hq].
  injection Hq as -> ->. apply freshFetch_success in Hf.
  split; [done|]. split.
  - intros d Hd.
    apply (query_hit _ _ _ _ (tick d w1) {| data := v; timestamp := now w1 |});
      [done | simpl; lia | done].
  - intros d Hd. unfold getCached. simpl.
    by rewrite (getCachedData_expired _ _ _ {| data := v; timestamp := now w1 |})
      by (done || simpl; lia).
Qed.

Lemma fresh_result_lifetime_witness :
  let w1 := (fetchTrends Sample.mockEnv (Some 3) Sample.start).2 in
  fetchTrends Sample.mockEnv (Some 3) (tick 300000 w1)
  = (Ret (JArr (slice0 3 (mockTrends Sample.fx))), tick 300000 w1).
Proof.
  intros w1.
  refine (proj1 (proj2 (fresh_result_lifetime Sample.mockEnv "trends"
            (trendsEndpoint (Some 3)) Sample.start w1
            (JArr (slice0 3 (mockTrends Sample.fx)))
            eq_refl eq_refl eq_refl)) 300000 _).
  unfold CACHE_DURATION. lia.
Defined.

(** X19.  The mode decides the only source a query function touches.
    In mock mode a call logs nothing (a cache hit), or one read of the
    fixtures, followed by the console message when that read fails: no
    timer is armed and no [fetch] is made, even if a base URL is
    configured.  In network mode a call never reads the fixtures. *)
Theorem mode_selects_source (E : env) (resource endpoint : string) (w : world) :
  (shouldUseMocks (conf E) = true ->
   exists evs,
     log (query (throw configError) E resource endpoint w).2 = log w ++ evs /\
     (evs = [] \/ evs = [EvMock endpoint] \/
      evs = [EvMock endpoint;
             EvConsoleError ("Error fetching " +:+ resource +:+ ":")])) /\
  (shouldUseMocks (conf E) = false ->
   exists evs,
     log (query (throw configError) E resource endpoint w).2 = log w ++ evs /\
     Forall (fun ev => forall ep, ev <> EvMock ep) evs).
Proof.
  assert (Hlog1 : log (getCached (getCacheKey endpoint) w).2 = log w).
  { unfold getCached. by destruct (getCachedData _ _ _). }
  destruct (truthy (getCachedData (now w) (getCacheKey endpoint) (cache w)).1)
    eqn:Hc.
  { assert (Hhit : log (query (throw configError) E resource endpoint w).2
                   = log w).
    { unfold query, bind, getCached in *.
      destruct (getCachedData _ _ _) as [v c']. simpl in *. by rewrite Hc. }
    split; intros _; exists []; rewrite app_nil_r; split; auto. }
  rewrite query_miss by done.
  set (w1 := (getCached (getCacheKey endpoint) w).2) in *.
  split; intros Hm.
  - rewrite freshFetch_mock by done.
    unfold tryCatch, bind, getMockData.
    destruct (mockRoute _ _).
    + exists [EvMock endpoint]. simpl. rewrite Hlog1. auto.
    + eexists. split; [|right; right; reflexivity].
      simpl. rewrite Hlog1. by rewrite <- app_assoc.
  - destruct (not_mocks_base_url _ Hm) as (u & Hu & _).
    rewrite (freshFetch_live _ _ _ _ u) by done.
    destruct (fetchWithRetry_arms_once (net E) (u +:+ endpoint) w1)
      as (evs & Hl & Hevs).
    assert (Hclean : Forall (fun ev => forall ep, ev <> EvMock ep)
                       (EvArmTimeout API_TIMEOUT :: evs)).
    { constructor; [done|]. eapply Forall_impl; [exact Hevs|].
      intros ev [-> | [ms ->]] ep; discriminate. }
    unfold tryCatch, bind.
    destruct (fetchWithRetry _ _ _) as [[resp|e] w2]; simpl in Hl.
    + unfold json. destruct (body resp) as [d|e].
      * exists (EvArmTimeout API_TIMEOUT :: evs). simpl.
        by rewrite Hl, Hlog1.
      * exists ((EvArmTimeout API_TIMEOUT :: evs)
                ++ [EvConsoleError ("Error fetching " +:+ resource +:+ ":")]).
        split; [simpl; by rewrite Hl, Hlog1, <- !app_assoc|].
        apply Forall_app. split; [done|]. by repeat constructor.
    + exists ((EvArmTimeout API_TIMEOUT :: evs)
              ++ [EvConsoleError ("Error fetching " +:+ resource +:+ ":")]).
      split; [simpl; by rewrite Hl, Hlog1, <- !app_assoc|].
      apply Forall_app. split; [done|]. by repeat constructor.
Qed.

Lemma mode_selects_source_witness :
  exists evs,
    log (fetchSubtrends
           {| conf := {| VITE_API_BASE_URL := Some "https://api.example.test";
                         stored_apiBaseUrl := None;
                         stored_useMocks := Some "true" |};
              mocks := Sample.fx; mockDelay := 250;
              net := Sample.always 100 Sample.networkError |}
           "defense-tech" Sample.start).2 = log Sample.start ++ evs /\
    (evs = [] \/ evs = [EvMock (subtrendsEndpoint "defense-tech")] \/
     evs = [EvMock (subtrendsEndpoint "defense-tech");
            EvConsoleError ("Error fetching " +:+ "subtrends" +:+ ":")]).
Proof.
  exact (proj1 (mode_selects_source
                  {| conf := {| VITE_API_BASE_URL := Some "https://api.example.test";
                                stored_apiBaseUrl := None;
                                stored_useMocks := Some "true" |};
                     mocks := Sample.fx; mockDelay := 250;
                     net := Sample.always 100 Sample.networkError |}
                  "subtrends"
                  (subtrendsEndpoint "defense-tech") Sample.start) eq_refl).
Defined.

(** X20.  A failed refresh leaves no stale data behind: when the entry
    for the request has expired and the fresh fetch fails, the call
    throws the error naming the resource, and the expired entry is gone
    from the cache. *)
Theorem failed_refresh_drops_stale_entry (E : env) (resource endpoint : string)
  (w w2 : world) (e : entry) (err : error) :
  cache w !! getCacheKey endpoint = Some e ->
  now w - timestamp e > CACHE_DURATION ->
  freshFetch (throw configError) E endpoint (getCacheKey endpoint)
    (getCached (getCacheKey endpoint) w).2 = (Throw err, w2) ->
  query (throw configError) E resource endpoint w
  = (Throw (Error ("Failed to fetch " +:+ resource +:+ ": " +:+ message err)),
     emit (EvConsoleError ("Error fetching " +:+ resource +:+ ":")) w2) /\
  cache w2 = delete (getCacheKey endpoint) (cache w).
Proof.
  intros He Hexp Hf.
  assert (Hg : getCachedData (now w) (getCacheKey endpoint) (cache w)
               = (JNull, delete (getCacheKey endpoint) (cache w)))
    by (by apply (getCachedData_expired _ _ _ e)).
  split.
  - rewrite query_miss by (by rewrite Hg). unfold tryCatch. by rewrite Hf.
  - apply freshFetch_throw_cache in Hf. rewrite Hf.
    unfold getCached. by rewrite Hg.
Qed.

Lemma failed_refresh_drops_stale_entry_witness :
  let w := {| now := 400000;
              cache := {[ "api:/trends/unknown-id/subtrends" :=
                          {| data := JArr []; timestamp := 0 |} ]};
              log := [] |} in
  cache (fetchSubtrends Sample.mockEnv "unknown-id" w).2
    !! "api:/trends/unknown-id/subtrends" = None.
Proof.
  intros w.
  destruct (failed_refresh_drops_stale_entry Sample.mockEnv "subtrends"
              (subtrendsEndpoint "unknown-id") w
              {| now := 400250; cache := ∅;
                 log := [EvMock "/trends/unknown-id/subtrends"] |}
              {| data := JArr []; timestamp := 0 |}
              (mockNotFound (subtrendsEndpoint "unknown-id"))
              eq_refl ltac:(vm_compute; reflexivity) eq_refl) as [Hq _].
  unfold fetchSubtrends, fetchSubtrendsWith. rewrite Hq. reflexivity.
Defined.

(** X21.  [testConnection] always answers and never throws, and it
    leaves the cache alone.  It reports success only in network mode,
    when [fetchWithRetry] returned for [<base URL>/trends?limit=1], and
    then the latency it reports is the time the call took, which is not
    negative; every other outcome is a failure report carrying a message
    and no latency.  In mock mode the report is always a failure, since
    the mock provider does not serve a limit of 1. *)
Theorem test_connection_report (E : env) (w : world) :
  exists r w',
    testConnection E w = (Ret r, w') /\ cache w' = cache w /\
    if success r
    then shouldUseMocks (conf E) = false /\
         latency r = Some (now w' - now w) /\ 0 <= now w' - now w /\
         error_message r = None /\
         exists u resp,
           getApiBaseUrl (conf E) = Some u /\
           fetchWithRetry (net E) (u +:+ "/trends?limit=1") w = (Ret resp, w')
    else latency r = None /\ exists m, error_message r = Some m.
Proof.
  unfold testConnection, testConnectionWith, tryCatch.
  destruct (shouldUseMocks (conf E)) eqn:Hm.
  - eexists _, _. split; [reflexivity|]. simpl. split; [done|]. eauto.
  - destruct (not_mocks_base_url _ Hm) as (u & Hu & Ht).
    rewrite Ht, Hu. unfold bind. cbn [negb].
    pose proof (fetchWithRetry_cache (net E) (u +:+ "/trends?limit=1") w) as Hc.
    pose proof (fetchWithRetry_now (net E) (u +:+ "/trends?limit=1") w) as Hn.
    destruct (fetchWithRetry (net E) (u +:+ "/trends?limit=1") w)
      as [[resp|e] w1] eqn:Hf; simpl in Hc, Hn.
    + eexists _, _. split; [reflexivity|]. simpl.
      split; [done|]. repeat split; try done; try lia. eauto.
    + eexists _, _. split; [reflexivity|]. simpl. split; [done|]. eauto.
Qed.

(** ** The loaders of the user interface *)

(** A query function throws nothing but its own wrapped error. *)
Lemma query_throws_wrapped (E : env) (resource endpoint : string)
  (w w' : world) (e : error) :
  query (throw configError) E resource endpoint w = (Throw e, w') ->
  exists m, e = Error ("Failed to fetch " +:+ resource +:+ ": " +:+ m).
Proof.
  unfold query, bind, tryCatch, getCached.
  destruct (getCachedData _ _ _) as [v c']. destruct (truthy v); [done|].
  destruct (freshFetch _ _ _ _ _) as [[d|e'] w2]; [done|].
  unfold rethrow, bind, consoleError, throw. intros [= <- _]. eauto.
Qed.

Lemma settle_outcome (request : M value) (resource : string)
  (s : listState) (w : world) :
  (forall e w', request w = (Throw e, w') ->
     exists m, e = Error ("Failed to fetch " +:+ resource +:+ ": " +:+ m)) ->
  let s' := (settle request s w).1 in
  showsSkeleton s' = false /\
  ((exists d w', request w = (Ret d, w') /\ items s' = d /\
                 errorText s' = None /\ showsError s' = false /\
                 forall xs, d = JArr xs ->
                   showsEmpty s' = Some (length xs =? 0)%nat /\
                   showsGrid s' = Some (0 <? length xs)%nat) \/
   (exists m w', request w = (Throw (Error ("Failed to fetch " +:+ resource
                                             +:+ ": " +:+ m)), w') /\
                 items s' = JArr [] /\
                 errorText s' = Some ("Failed to fetch " +:+ resource +:+ ": " +:+ m) /\
                 showsError s' = true /\
                 showsEmpty s' = Some false /\ showsGrid s' = Some false)).
Proof.
  intros Hwrap. unfold settle.
  destruct (request w) as [[d|e] w'] eqn:Hr; simpl.
  - split; [done|]. left. exists d, w'.
    split; [done|]. split; [done|]. split; [done|]. split; [done|].
    by intros xs ->.
  - split; [done|]. right.
    destruct (Hwrap e w' eq_refl) as (m & ->). exists m, w'.
    unfold showsError, showsEmpty, showsGrid, listGuard. simpl.
    change ("Failed to fetch " +:+ resource +:+ ": " +:+ m)
      with (String "F" ("ailed to fetch " +:+ resource +:+ ": " +:+ m)).
    done.
Qed.

(** X22.  How [loadTrends] of the hero section ends.  While the request
    is pending the skeleton is shown and the error cleared; afterwards
    the skeleton is gone and exactly one of two things holds.  Either
    the call returned: the list is its payload, no error is shown, and
    when the payload is an array the condition of the empty notice holds
    exactly when it has no element and that of the grid exactly when it
    has some.  Or the call threw: the list is empty and the error box
    shows a text beginning with [Failed to fetch trends: ] (never an
    empty text, so the box is rendered), and the conditions of the empty
    notice and of the grid are both false. *)
Theorem load_trends_outcome (E : env) (s : listState) (w : world) :
  let s' := (loadTrends E s w).1 in
  (showsSkeleton (pendingState s) = true /\
   showsError (pendingState s) = false /\
   items (pendingState s) = items s) /\
  showsSkeleton s' = false /\
  ((exists d w', fetchTrends E (Some 3) w = (Ret d, w') /\ items s' = d /\
                 errorText s' = None /\ showsError s' = false /\
                 forall xs, d = JArr xs ->
                   showsEmpty s' = Some (length xs =? 0)%nat /\
                   showsGrid s' = Some (0 <? length xs)%nat) \/
   (exists m w', fetchTrends E (Some 3) w
                   = (Throw (Error ("Failed to fetch " +:+ "trends"
                                     +:+ ": " +:+ m)), w') /\
                 items s' = JArr [] /\
                 errorText s' = Some ("Failed to fetch " +:+ "trends" +:+ ": " +:+ m) /\
                 showsError s' = true /\
                 showsEmpty s' = Some false /\ showsGrid s' = Some false)).
Proof.
  split; [done|].
  apply (settle_outcome (fetchTrends E (Some 3)) "trends").
  intros e w'. apply query_throws_wrapped.
Qed.

Lemma load_trends_outcome_witness :
  let s0 := {| items := JArr []; loading := true; errorText := None |} in
  showsSkeleton (loadTrends Sample.mockEnv s0 Sample.start).1 = false /\
  showsSkeleton
    (loadTrends (Sample.liveEnv (Sample.always 100 Sample.networkError))
       s0 Sample.start).1 = false.
Proof.
  intros s0. split.
  - exact (proj1 (proj2 (load_trends_outcome Sample.mockEnv s0 Sample.start))).
  - exact (proj1 (proj2 (load_trends_outcome
                           (Sample.liveEnv (Sample.always 100 Sample.networkError))
                           s0 Sample.start))).
Defined.

(** X23.  The drawer loads startups only when it is open on a
    sub-trend: closed, or with no sub-trend selected, the effect changes
    neither its state nor the world (no request, no cache access).  Open
    on a sub-trend, it asks for the startups of that identifier with
    limit 3 and ends like [loadTrends]: with the payload as its list and
    no error, the conditions of the empty notice and of the list being
    decided by the length when the payload is an array; or with an empty
    list and an error text beginning with [Failed to fetch startups: ],
    the conditions of the empty notice and of the list both false. *)
Theorem load_startups_outcome (E : env) (isOpen : bool)
  (subtrend : option string) (s : listState) (w : world) :
  (isOpen = false \/ subtrend = None ->
   loadStartups E isOpen subtrend s w = (s, w)) /\
  (forall id, isOpen = true -> subtrend = Some id ->
     let s' := (loadStartups E isOpen subtrend s w).1 in
     (loadStartups E isOpen subtrend s w).2
       = (fetchStartups E id (Some 3) w).2 /\
     showsSkeleton s' = false /\
     ((exists d w', fetchStartups E id (Some 3) w = (Ret d, w') /\
                    items s' = d /\ errorText s' = None /\
                    showsError s' = false /\
                    forall xs, d = JArr xs ->
                      showsEmpty s' = Some (length xs =? 0)%nat /\
                      showsGrid s' = Some (0 <? length xs)%nat) \/
      (exists m w', fetchStartups E id (Some 3) w
                      = (Throw (Error ("Failed to fetch " +:+ "startups"
                                        +:+ ": " +:+ m)), w') /\
                    items s' = JArr [] /\
                    errorText s' = Some ("Failed to fetch " +:+ "startups"
                                     +:+ ": " +:+ m) /\
                    showsError s' = true /\
                    showsEmpty s' = Some false /\ showsGrid s' = Some false))).
Proof.
  split.
  - intros [-> | ->]; unfold loadStartups; [by destruct subtrend | done].
  - intros id -> ->. unfold loadStartups. simpl negb. cbv iota. split.
    + unfold settle. by destruct (fetchStartups E id (Some 3) w) as [[d|e] w'].
    + apply (settle_outcome (fetchStartups E id (Some 3)) "startups").
      intros e w'. apply query_throws_wrapped.
Qed.

Lemma load_startups_outcome_witness :
  let s0 := {| items := JArr []; loading := false; errorText := None |} in
  loadStartups Sample.mockEnv false (Some "military-drones") s0 Sample.start
  = (s0, Sample.start)
  /\
  ((loadStartups Sample.mockEnv true (Some "military-drones") s0 Sample.start).2
   = (fetchStartups Sample.mockEnv "military-drones" (Some 3) Sample.start).2
   /\
   showsSkeleton
     (loadStartups Sample.mockEnv true (Some "military-drones") s0
        Sample.start).1 = false).
Proof.
  intros s0. split.
  - exact (proj1 (load_startups_outcome Sample.mockEnv false
                    (Some "military-drones") s0 Sample.start)
             (or_introl eq_refl)).
  - pose proof (proj2 (load_startups_outcome Sample.mockEnv true
                         (Some "military-drones") s0 Sample.start)
                  "military-drones" eq_refl eq_refl) as H.
    exact (conj (proj1 H) (proj1 (proj2 H))).
Defined.

(** ** Frames and bounds *)

Lemma freshFetch_frame (E : env) (endpoint cacheKey k' : string) (w : world) :
  k' <> cacheKey ->
  cache (freshFetch (throw configError) E endpoint cacheKey w).2 !! k'
  = cache w !! k'.
Proof.
  intros Hne. destruct (shouldUseMocks (conf E)) eqn:Hm.
  - rewrite freshFetch_mock by done. unfold bind, getMockData.
    destruct (mockRoute _ _); [|done]. simpl.
    unfold setCachedData. by rewrite lookup_insert_ne.
  - destruct (not_mocks_base_url _ Hm) as (u & Hu & _).
    rewrite (freshFetch_live _ _ _ _ u) by done. unfold bind.
    pose proof (fetchWithRetry_cache (net E) (u +:+ endpoint) w) as Hc.
    destruct (fetchWithRetry _ _ _) as [[resp|e] w']; simpl in Hc;
      [|by rewrite <- Hc].
    unfold json. destruct (body resp); simpl; [|by rewrite <- Hc].
    unfold setCachedData. by rewrite lookup_insert_ne, Hc.
Qed.

(** X24.  A query function changes the cache at most under the key of
    its own request: whatever it does (hit, eviction, fresh fetch, store),
    the entry under every other key is as it was. *)
Theorem query_touches_only_its_key (E : env) (resource endpoint k' : string)
  (w : world) :
  k' <> getCacheKey endpoint ->
  cache (query (throw configError) E resource endpoint w).2 !! k'
  = cache w !! k'.
Proof.
  intros Hne.
  assert (Hget : cache (getCached (getCacheKey endpoint) w).2 !! k'
                 = cache w !! k').
  { unfold getCached.
    pose proof (getCachedData_frame (cache w) (getCacheKey endpoint)
                  (now w) k' Hne) as Hf.
    by destruct (getCachedData _ _ _). }
  destruct (truthy (getCachedData (now w) (getCacheKey endpoint) (cache w)).1)
    eqn:Hc.
  - unfold query, bind, getCached in *.
    destruct (getCachedData _ _ _) as [v c']. simpl in *. by rewrite Hc.
  - rewrite query_miss by done. unfold tryCatch.
    pose proof (freshFetch_frame E endpoint (getCacheKey endpoint) k'
                  (getCached (getCacheKey endpoint) w).2 Hne) as Hf.
    destruct (freshFetch _ _ _ _ _) as [[v|e] w2]; simpl in *;
      by rewrite Hf.
Qed.

Lemma query_touches_only_its_key_witness :
  let w := {| now := 1000;
              cache := {[ "api:/trends" :=
                          {| data := JArr []; timestamp := 0 |} ]};
              log := [] |} in
  cache (fetchSubtrends Sample.mockEnv "defense-tech" w).2 !! "api:/trends"
  = Some {| data := JArr []; timestamp := 0 |}.
Proof.
  intros w.
  refine (eq_trans (query_touches_only_its_key Sample.mockEnv "subtrends"
                      (subtrendsEndpoint "defense-tech") "api:/trends" w _) _);
    [discriminate | reflexivity].
Defined.

Lemma attempts_unanswered (net : network) (url : string) (deadline : Z)
  (r a : nat) (last : option error) (c : controller) (w : world) :
  (forall i, exists e, (net i).2 = Rejected e) ->
  unanswered deadline c w ->
  (exists e, (attempts net url r a last c w).1 = Throw e) /\
  now (attempts net url r a last c w).2 < deadline + 2000.
Proof.
  intros Hnet. revert a last c w.
  induction r as [|r IH]; intros a last c w Hu.
  { simpl. split; [eauto|]. destruct Hu as [(_ & _ & H) | (_ & H)]; lia. }
  simpl.
  assert (Hf : exists e c1 w1,
            doFetch net url a c w = (Rejected e, c1, w1) /\
            ((noRetry e = true /\ now w1 < deadline + 2000) \/
             (aborted c1 = false /\ pending c1 = Some deadline /\
              now w1 < deadline))).
  { unfold doFetch. destruct Hu as [(Hab & Hp & Hlt) | (Hab & Hlt)]; rewrite Hab.
    - destruct (Hnet a) as (e & He). destruct (net a) as [lat rep].
      simpl in He. subst rep. rewrite Hp. simpl.
      destruct (deadline <=? now w + Z.of_N lat) eqn:Hd.
      + eexists _, _, _. split; [reflexivity|]. left. split; [done|].
        simpl. lia.
      + apply Z.leb_gt in Hd. eexists _, _, _. split; [reflexivity|].
        right. simpl. by rewrite Hab, Hp.
    - eexists _, _, _. split; [reflexivity|]. left. by split. }
  destruct Hf as (e & c1 & w1 & -> & Hcase).
  destruct Hcase as [[Hno Hlt] | (Hab & Hp & Hlt)].
  { rewrite Hno. simpl. eauto. }
  destruct (noRetry e); [simpl; split; [eauto | lia]|].
  destruct (a <? MAX_RETRIES)%nat eqn:Ha.
  - apply Nat.ltb_lt in Ha. unfold MAX_RETRIES in Ha.
    assert (Hms : 0 <= 2 ^ Z.of_nat a * 1000 <= 2000).
    { destruct a as [|[|a]]; [simpl; lia | simpl; lia | lia]. }
    simpl. apply IH. unfold unanswered, fireIfDue. rewrite Hp. simpl.
    destruct (deadline <=? now w1 + 2 ^ Z.of_nat a * 1000) eqn:Hd; simpl.
    + right. split; [done | lia].
    + apply Z.leb_gt in Hd. left. by rewrite Hab, Hp.
  - apply IH. left. done.
Qed.

(** X25.  When no response ever arrives the timeout does bound the call:
    if every attempt the network lets through ends in a rejection, then
    [fetchWithRetry] throws, and it ends less than [API_TIMEOUT] plus the
    length of the longest back-off (2000 ms) after it began. *)
Theorem timeout_bounds_unanswered_call (net : network) (url : string)
  (w : world) :
  (forall i, exists e, (net i).2 = Rejected e) ->
  (exists e, (fetchWithRetry net url w).1 = Throw e) /\
  now (fetchWithRetry net url w).2 < now w + API_TIMEOUT + 2000.
Proof.
  intros Hnet. unfold fetchWithRetry.
  apply (attempts_unanswered net url (now w + API_TIMEOUT)); [done|].
  left. simpl. unfold API_TIMEOUT. repeat split; lia.
Qed.

Lemma timeout_bounds_unanswered_call_witness :
  now (fetchWithRetry (Sample.always 9500 Sample.networkError)
         "https://api.example.test/trends" Sample.start).2
  < now Sample.start + API_TIMEOUT + 2000.
Proof.
  apply (timeout_bounds_unanswered_call (Sample.always 9500 Sample.networkError)
           "https://api.example.test/trends" Sample.start).
  intros i. eexists. reflexivity.
Defined.
